(** * Booking admission and consistency engine (backend-firestore)

    A shallow embedding of [BookingRepository], [BookingService] and
    [ChildService]: documents are records, a Firestore collection is the
    list of its documents, timestamps are milliseconds in [Z], and every
    [async] method is a function of the world it runs in.  Methods that only
    read are in the reader monad [R]; the operations that write
    ([create], [update], [destroyAll]) are in the state monad [M]. *)

From Stdlib Require Import ZArith List String Bool Lia.
Import ListNotations.
Local Open Scope string_scope.
Local Open Scope list_scope.
Local Open Scope Z_scope.

(** ** Values *)

(** Document ids are JavaScript strings. *)
Definition Id := string.

(** JavaScript truthiness of a string: every string but the empty one. *)
Definition truthy (s : string) : bool := negb (s =? "")%string.

(** Truthiness of a value that may be [null] or [undefined]. *)
Definition truthyOpt (o : option string) : bool :=
  match o with
  | Some s => truthy s
  | None => false
  end.

(** [a !== b] on values that may be [null]. *)
Definition optStrNeq (a b : option string) : bool :=
  match a, b with
  | Some x, Some y => negb (x =? y)%string
  | None, None => false
  | _, _ => true
  end.

(** enumerators/bookingStatus *)
Inductive bookingStatus : Type :=
| BOOKED
| PROGRESS
| COMPLETED
| CANCELLED.

Definition status_eqb (a b : bookingStatus) : bool :=
  match a, b with
  | BOOKED, BOOKED | PROGRESS, PROGRESS
  | COMPLETED, COMPLETED | CANCELLED, CANCELLED => true
  | _, _ => false
  end.

(** [Array.prototype.includes] on an array of statuses. *)
Definition includes (xs : list bookingStatus) (s : bookingStatus) : bool :=
  existsb (status_eqb s) xs.

(** A date is a count of milliseconds; the counts a JavaScript Date can
    hold reach 8.64e15 either way, and a date built from a count beyond
    is the invalid date. *)
Definition maxDate : Z := 8640000000000000.

Definition validDate (t : Z) : bool := (- maxDate <=? t) && (t <=? maxDate).

(** moment(a).isAfter(b) and moment(a).isSameOrBefore(b): both answer
    false as soon as one of the two dates is invalid. *)
Definition isAfter (a b : Z) : bool :=
  validDate a && validDate b && (b <? a).

Definition isSameOrBefore (a b : Z) : bool :=
  validDate a && validDate b && (a <=? b).

Record Photo : Type := mkPhoto { photo_id : Id; photo_name : string }.

(** The errors the services raise.  [TypeError] is the JavaScript runtime's
    own (calling [undefined], reading a property of [null]). *)
Inductive Error : Type :=
| ValidationError (messageKey : string)
| ForbiddenError
| NotFoundError
| TypeError (message : string).

(** ** Documents *)

Module Booking.
(** A booking document as the repository returns it: the relations
    [owner] and [child] are populated objects of which the services read
    the [id] only; either may be [null]. *)
Record t : Type := mk {
  id : Id;
  owner : option Id;
  child : option Id;
  arrival : Z;
  departure : Z;
  status : bookingStatus;
  fee : option Z;
  employeeNotes : option string;
  photos : list Photo
}.
End Booking.

Module BookingInput.
(** The [data] payload of create and update.  [fee] is whatever the
    caller sent; [employeeNotes] and [photos] may be absent. *)
Record t : Type := mk {
  owner : Id;
  child : Id;
  arrival : Z;
  departure : Z;
  status : bookingStatus;
  fee : option Z;
  employeeNotes : option string;
  photos : option (list Photo)
}.

(** [data.owner = v] *)
Definition set_owner (v : Id) (d : t) : t :=
  mk v (child d) (arrival d) (departure d) (status d) (fee d)
     (employeeNotes d) (photos d).

(** [data.fee = v] *)
Definition set_fee (v : option Z) (d : t) : t :=
  mk (owner d) (child d) (arrival d) (departure d) (status d) v
     (employeeNotes d) (photos d).
End BookingInput.

Module Child.
Record t : Type := mk {
  id : Id;
  owner : option Id;
  bookings : list Id
}.
End Child.

Record Settings : Type := mkSettings { capacity : Z; dailyFee : Z }.

Inductive Role : Type := childOwner | employee | manager.

Record User : Type := mkUser { user_id : Id; user_roles : list Role }.

(** ** The world *)

Record Database : Type := mkDatabase {
  bookingCollection : list Booking.t;
  childCollection : list Child.t;
  settingsDoc : Settings
}.

(** The writes a batch can hold. *)
Inductive WriteOp : Type :=
| SetBooking (record : Booking.t)
| DeleteBooking (id : Id)
| AddChildBooking (childId bookingId : Id)
| RemoveChildBooking (bookingId : Id)
| DeleteChild (id : Id).

Definition Batch := list WriteOp.

(** What an observer outside the service sees, oldest first. *)
Inductive Event : Type :=
| Committed (ops : Batch)
| EmailSent (booking : Booking.t).

Record World : Type := mkWorld {
  db : Database;
  clock : Z;
  log : list Event
}.

(** ** Monads *)

Definition Result (A : Type) : Type := (Error + A)%type.

(** Awaited calls that read the world and may throw. *)
Definition R (A : Type) : Type := World -> Result A.

(** Awaited calls that may also change the world. *)
Definition M (A : Type) : Type := World -> Result A * World.

Definition retR {A} (a : A) : R A := fun _ => inr a.
Definition throwR {A} (e : Error) : R A := fun _ => inl e.
Definition bindR {A B} (c : R A) (k : A -> R B) : R B :=
  fun w => match c w with
           | inl e => inl e
           | inr a => k a w
           end.

Definition retM {A} (a : A) : M A := fun w => (inr a, w).
Definition bindM {A B} (c : M A) (k : A -> M B) : M B :=
  fun w => match c w with
           | (inl e, w') => (inl e, w')
           | (inr a, w') => k a w'
           end.

(** A read inside a mutating operation leaves the world as it is. *)
Definition liftR {A} (c : R A) : M A := fun w => (c w, w).

Declare Scope read_scope.
Delimit Scope read_scope with read.
Notation "x <- c ;; k" := (bindR c (fun x => k))
  (at level 61, c at next level, right associativity) : read_scope.
Notation "c ;;; k" := (bindR c (fun _ => k))
  (at level 61, right associativity) : read_scope.

Declare Scope op_scope.
Delimit Scope op_scope with op.
Notation "x <- c ;; k" := (bindM c (fun x => k))
  (at level 61, c at next level, right associativity) : op_scope.
Notation "c ;;; k" := (bindM c (fun _ => k))
  (at level 61, right associativity) : op_scope.

(** [moment()]: the current instant. *)
Definition moment : R Z := fun w => inr (clock w).

Definition isOk {A} (r : Result A) : bool :=
  match r with
  | inr _ => true
  | inl _ => false
  end.

(** ** iam/userRoleChecker *)

Module UserRoleChecker.

Definition role_eqb (a b : Role) : bool :=
  match a, b with
  | childOwner, childOwner | employee, employee | manager, manager => true
  | _, _ => false
  end.

(** Modelled from the spec: UserRoleChecker is not among the sources; a
    role is a capability of the acting principal, who may hold several. *)
Definition hasRole (r : Role) (u : User) : bool :=
  existsb (role_eqb r) (user_roles u).

Definition isChildOwner (u : User) : bool := hasRole childOwner u.
Definition isEmployee (u : User) : bool := hasRole employee u.

End UserRoleChecker.

(** ** settingsService *)

Module SettingsService.

(** Modelled from the spec: SettingsService is not among the sources;
    [findOrCreateDefault(actor)] answers the stored settings document,
    read anew at every call. *)
Definition findOrCreateDefault (currentUser : User) : R Settings :=
  fun w => inr (settingsDoc (db w)).

End SettingsService.

(** ** abstractRepository: write batches *)

Module AbstractRepository.

(** Modelled from the spec: AbstractRepository and
    AbstractEntityRepository are not among the sources.  Setting a
    document replaces the one with its id or adds it. *)
Fixpoint upsert (r : Booking.t) (l : list Booking.t) : list Booking.t :=
  match l with
  | [] => [r]
  | x :: l' =>
      if (Booking.id x =? Booking.id r)%string then r :: l'
      else x :: upsert r l'
  end.

(** Modelled from the spec: the back-reference [child.bookings] is a set
    of booking ids, added to idempotently. *)
Definition addOnce (b : Id) (l : list Id) : list Id :=
  if existsb (String.eqb b) l then l else l ++ [b].

Definition linkChild (childId bookingId : Id) (c : Child.t) : Child.t :=
  if (Child.id c =? childId)%string
  then Child.mk (Child.id c) (Child.owner c)
         (addOnce bookingId (Child.bookings c))
  else c.

Definition unlinkChild (bookingId : Id) (c : Child.t) : Child.t :=
  Child.mk (Child.id c) (Child.owner c)
    (filter (fun b => negb (b =? bookingId)%string) (Child.bookings c)).

(** Modelled from the spec: a batch is the list of its writes, applied
    together, in order, when it commits. *)
Definition applyOp (d : Database) (op : WriteOp) : Database :=
  match op with
  | SetBooking r =>
      mkDatabase (upsert r (bookingCollection d)) (childCollection d)
        (settingsDoc d)
  | DeleteBooking i =>
      mkDatabase
        (filter (fun b => negb (Booking.id b =? i)%string)
           (bookingCollection d))
        (childCollection d) (settingsDoc d)
  | AddChildBooking c b =>
      mkDatabase (bookingCollection d)
        (map (linkChild c b) (childCollection d)) (settingsDoc d)
  | RemoveChildBooking b =>
      mkDatabase (bookingCollection d)
        (map (unlinkChild b) (childCollection d)) (settingsDoc d)
  | DeleteChild i =>
      mkDatabase (bookingCollection d)
        (filter (fun c => negb (Child.id c =? i)%string)
           (childCollection d))
        (settingsDoc d)
  end.

Definition createBatch : M Batch := retM [].

Definition commitBatch (batch : Batch) : M unit :=
  fun w =>
    (inr tt,
     mkWorld (fold_left applyOp batch (db w)) (clock w)
       (log w ++ [Committed batch])).

End AbstractRepository.

(** ** database/repositories/childRepository *)

Module ChildRepository.

(** Modelled from the spec: ChildRepository is not among the sources;
    [findById] answers the child document or fails with NotFound. *)
Definition findById (id : Id) : R Child.t :=
  fun w =>
    match find (fun c => (Child.id c =? id)%string)
            (childCollection (db w)) with
    | Some c => inr c
    | None => inl NotFoundError
    end.

(** Modelled from the spec: [destroy(id, { batch, currentUser })] queues
    the deletion of the child document on the batch it is given. *)
Definition destroy (id : Id) (batch : Batch) (currentUser : User) : Batch :=
  batch ++ [DeleteChild id].

End ChildRepository.

(** ** database/repositories/bookingRepository *)

Definition Range : Type := (option Z * option Z)%type.

Record BookingFilter : Type := mkFilter {
  filter_id : option Id;
  filter_owner : option Id;
  filter_child : option Id;
  filter_arrivalRange : option Range;
  filter_departureRange : option Range;
  filter_period : option Range;
  filter_status : option bookingStatus;
  filter_feeRange : option Range;
  filter_createdAtRange : option Range
}.

(** The filter [{}]. *)
Definition emptyFilter : BookingFilter :=
  mkFilter None None None None None None None None None.

Record Args : Type := mkArgs {
  args_filter : option BookingFilter;
  args_limit : Z;
  args_offset : Z;
  args_orderBy : option string
}.

(** The calls made on a FirebaseQuery, in order. *)
Inductive Clause : Type :=
| appendId (field : string) (value : Id)
| appendRange (field : string) (range : Range)
| appendOverlap (fieldStart fieldEnd : string) (range : Range)
| appendEqual (field : string) (value : bookingStatus).

Record Query : Type := mkQuery {
  query_limit : Z;
  query_offset : Z;
  query_orderBy : string;
  query_clauses : list Clause
}.

(** The [filter] of the autocomplete listing, and what it answers for
    each record: [{ id, label }]. *)
Record AutocompleteFilter : Type := mkAutocompleteFilter {
  autocomplete_search : option string;
  autocomplete_owner : option Id
}.

Record AutocompleteItem : Type := mkItem { item_id : Id; item_label : Id }.

(** [FirebaseQuery.forAutocomplete({ limit, orderBy })] and the calls made
    on it. *)
Record AutocompleteQuery : Type := mkAutocompleteQuery {
  autocomplete_limit : option Z;
  autocomplete_orderBy : string;
  autocomplete_clauses : list Clause
}.

Module BookingRepository.

(** Modelled from the spec: [findDocument] is inherited from
    AbstractEntityRepository, which is not among the sources; a booking
    that is absent fails with NotFound. *)
Definition findDocument (id : Id) : R Booking.t :=
  fun w =>
    match find (fun b => (Booking.id b =? id)%string)
            (bookingCollection (db w)) with
    | Some b => inr b
    | None => inl NotFoundError
    end.

(** [populate] resolves [record.child] and [record.owner]; a document
    already carries them as the ids the services read. *)
Definition populate (record : Booking.t) : R Booking.t := retR record.

Definition findById (id : Id) : R Booking.t :=
  (record <- findDocument id ;; populate record)%read.

(** [if (x) q.append...(x)] for a string that may be absent. *)
Definition whenId (o : option Id) (c : Id -> Clause) : list Clause :=
  match o with
  | Some v => if truthy v then [c v] else []
  | None => []
  end.

(** The same for an array or an enumerator value, truthy when present. *)
Definition whenSome {A} (o : option A) (c : A -> Clause) : list Clause :=
  match o with
  | Some v => [c v]
  | None => []
  end.

Definition filterClauses (f : BookingFilter) : list Clause :=
  whenId (filter_id f) (appendId "id")
  ++ whenId (filter_owner f) (appendId "owner")
  ++ whenId (filter_child f) (appendId "child")
  ++ whenSome (filter_arrivalRange f) (appendRange "arrival")
  ++ whenSome (filter_departureRange f) (appendRange "departure")
  ++ whenSome (filter_period f) (appendOverlap "arrival" "departure")
  ++ whenSome (filter_status f) (appendEqual "status")
  ++ whenSome (filter_feeRange f) (appendRange "fee")
  ++ whenSome (filter_createdAtRange f) (appendRange "createdAt").

(** The query [findAndCountAll] builds before it reads the collection. *)
Definition findAndCountAll_query (args : Args) : Query :=
  mkQuery (args_limit args) (args_offset args)
    (match args_orderBy args with
     | Some o => if truthy o then o else "createdAt_DESC"
     | None => "createdAt_DESC"
     end)
    (match args_filter args with
     | Some f => filterClauses f
     | None => []
     end).

Section FirebaseQuery.

(** utils/firebaseQuery is not among the sources: [query.rows(all)] and
    [query.count(all)] are taken as they come. *)
Variable rows : Query -> list Booking.t -> list Booking.t.
Variable count : Query -> list Booking.t -> Z.

Definition findAndCountAll (args : Args) : R (list Booking.t * Z) :=
  fun w =>
    let query := findAndCountAll_query args in
    let all := bookingCollection (db w) in
    inr (rows query all, count query all).

End FirebaseQuery.

Definition existsForChild (childId : Id) : R bool :=
  fun w =>
    let collection :=
      firstn 1
        (filter
           (fun b =>
              match Booking.child b with
              | Some c => (c =? childId)%string
              | None => false
              end)
           (bookingCollection (db w))) in
    inr (0 <? Z.of_nat (List.length collection)).

Definition countActiveBookingsInPeriod
    (start end_ : Z) (idToExclude : option Id) : R Z :=
  fun w =>
    (* departure >= start and arrival <= end *)
    let results :=
      filter (fun b => start <=? Booking.departure b)
        (bookingCollection (db w)) in
    match results with
    | [] => inr 0
    | _ =>
        let arrivalFilter item :=
          isSameOrBefore (Booking.arrival item) end_ in
        let statusFilter item :=
          includes [BOOKED; PROGRESS] (Booking.status item) in
        let idToExcludeFilter item :=
          negb (truthyOpt idToExclude)
          || optStrNeq (Some (Booking.id item)) idToExclude in
        inr (Z.of_nat
               (List.length
                  (filter statusFilter
                     (filter idToExcludeFilter
                        (filter arrivalFilter results)))))
    end.

(** Property lookup on a BookingRepository instance, for the members
    called with [(start, end, idToExclude)].  The class declares
    [countActiveBookingsInPeriod]; the lookup of a name that it does not
    declare evaluates to [undefined]. *)
Definition periodCounter (name : string)
  : option (Z -> Z -> option Id -> R Z) :=
  if (name =? "countActiveBookingsInPeriod")%string
  then Some countActiveBookingsInPeriod
  else None.

(** Modelled from the spec: [create], [update] and [destroy] are
    inherited from AbstractEntityRepository, which is not among the
    sources.  Each is given [{ batch, currentUser }] and queues its writes
    on the batch: the booking document and, through
    [refreshTwoWayRelations] or [destroyFromRelations], the back-reference
    kept in [child.bookings]. *)
Definition create (autoId : Id) (data : BookingInput.t) (batch : Batch)
    (currentUser : User) : Booking.t * Batch :=
  let record :=
    Booking.mk autoId
      (Some (BookingInput.owner data)) (Some (BookingInput.child data))
      (BookingInput.arrival data) (BookingInput.departure data)
      (BookingInput.status data) (BookingInput.fee data)
      (BookingInput.employeeNotes data)
      (match BookingInput.photos data with
       | Some l => l
       | None => []
       end) in
  (record,
   batch ++ [SetBooking record;
             AddChildBooking (BookingInput.child data) autoId]).

Definition update (id : Id) (data : BookingInput.t) (batch : Batch)
    (currentUser : User) : R (Booking.t * Batch) :=
  (existing <- findDocument id ;;
   let record :=
     Booking.mk id
       (Some (BookingInput.owner data)) (Some (BookingInput.child data))
       (BookingInput.arrival data) (BookingInput.departure data)
       (BookingInput.status data) (BookingInput.fee data)
       (match BookingInput.employeeNotes data with
        | Some n => Some n
        | None => Booking.employeeNotes existing
        end)
       (match BookingInput.photos data with
        | Some l => l
        | None => Booking.photos existing
        end) in
   retR (record,
         batch ++ [SetBooking record;
                   AddChildBooking (BookingInput.child data) id]))%read.

Definition destroy (id : Id) (batch : Batch) (currentUser : User) : Batch :=
  batch ++ [DeleteBooking id; RemoveChildBooking id].

Definition findAllAutocomplete_query
    (filter : option AutocompleteFilter) (limit : option Z)
  : AutocompleteQuery :=
  mkAutocompleteQuery limit "id_ASC"
    (match filter with
     | Some f => whenId (autocomplete_search f) (appendId "id")
     | None => []
     end).

(** [row.owner === owner], on the raw document. *)
Definition ownerIs (owner : Id) (row : Booking.t) : bool :=
  match Booking.owner row with
  | Some o => (o =? owner)%string
  | None => false
  end.

Section Autocomplete.

(** utils/firebaseQuery is not among the sources: [query.rows(all)] of an
    autocomplete query is taken as it comes. *)
Variable rows : AutocompleteQuery -> list Booking.t -> list Booking.t.

Definition findAllAutocomplete
    (filter : option AutocompleteFilter) (limit : option Z)
  : R (list AutocompleteItem) :=
  fun w =>
    let query := findAllAutocomplete_query filter limit in
    let all := bookingCollection (db w) in
    let rows := rows query all in
    let rows :=
      match filter with
      | Some f =>
          match autocomplete_owner f with
          | Some owner =>
              if truthy owner then List.filter (ownerIs owner) rows
              else rows
          | None => rows
          end
      | None => rows
      end in
    inr (map (fun record => mkItem (Booking.id record) (Booking.id record))
           rows).

End Autocomplete.

End BookingRepository.

(** ** services/booking/bookingService *)

Module BookingService.

Section Service.

(** [this.currentUser] *)
Variable currentUser : User.

(** [BookingFeeCalculator.calculate(arrival, departure, dailyFee)]:
    bookingFeeCalculator is not among the sources. *)
Variable calculate : Z -> Z -> Z -> Z.

Definition _validateFindById (record : Booking.t) : R unit :=
  if UserRoleChecker.isChildOwner currentUser then
    match Booking.owner record with
    | Some ownerId =>
        if negb (ownerId =? user_id currentUser)%string
        then throwR ForbiddenError
        else retR tt
    | None => retR tt
    end
  else retR tt.

Definition findById (id : Id) : R Booking.t :=
  (record <- BookingRepository.findById id ;;
   _validateFindById record ;;;
   retR record)%read.

Definition _validateIsSameOwner (id : Id) : R unit :=
  (findById id ;;; retR tt)%read.

Definition _validatePeriodFuture (data : BookingInput.t) : R unit :=
  let arrival := BookingInput.arrival data in
  let departure := BookingInput.departure data in
  let status := BookingInput.status data in
  if negb (status_eqb status BOOKED) then retR tt
  else if isAfter arrival departure then
    throwR (ValidationError
              "entities.booking.validation.arrivalAfterDeparture")
  else
    (now <- moment ;;
     if isAfter now arrival then
       throwR (ValidationError "entities.booking.validation.periodPast")
     else retR tt)%read.

Definition isPeriodAvailable (start end_ : Z) (idToExclude : option Id)
  : R bool :=
  match BookingRepository.periodCounter "countActiveBookingInPeriod" with
  | Some countActiveBookingInPeriod =>
      (bookingsAtPeriod <- countActiveBookingInPeriod start end_ idToExclude ;;
       settings <- SettingsService.findOrCreateDefault currentUser ;;
       retR (bookingsAtPeriod <? capacity settings))%read
  | None =>
      throwR (TypeError
                "this.repository.countActiveBookingInPeriod is not a function")
  end.

Definition _validatePeriodAvailable (id : option Id) (data : BookingInput.t)
  : R unit :=
  if negb (includes [PROGRESS; BOOKED] (BookingInput.status data))
  then retR tt
  else
    (available <- isPeriodAvailable (BookingInput.arrival data)
                    (BookingInput.departure data) id ;;
     if negb available then
       throwR (ValidationError "entities.booking.validation.periodFull")
     else retR tt)%read.

Definition _validateChildAndOwnerMatch (data : BookingInput.t) : R unit :=
  (child <- ChildRepository.findById (BookingInput.child data) ;;
   match Child.owner child with
   | None => throwR (TypeError "Cannot read properties of null (reading 'id')")
   | Some ownerId =>
       if negb (ownerId =? BookingInput.owner data)%string
       then throwR ForbiddenError
       else retR tt
   end)%read.

Definition _validateCreate (data : BookingInput.t) : R unit :=
  (_validatePeriodFuture data ;;;
   _validatePeriodAvailable None data ;;;
   (if UserRoleChecker.isChildOwner currentUser then
      if negb (BookingInput.owner data =? user_id currentUser)%string
      then throwR ForbiddenError
      else if negb (status_eqb (BookingInput.status data) BOOKED)
      then throwR ForbiddenError
      else retR tt
    else retR tt) ;;;
   _validateChildAndOwnerMatch data)%read.

(** Answers the payload, whose [owner] it has overwritten. *)
Definition _validateUpdateForChildOwner
    (id : Id) (data : BookingInput.t) (existingData : Booking.t)
  : R BookingInput.t :=
  let data := BookingInput.set_owner (user_id currentUser) data in
  (_validateIsSameOwner id ;;;
   if negb (status_eqb (Booking.status existingData) BOOKED)
   then throwR ForbiddenError
   else if negb (includes [CANCELLED; BOOKED] (BookingInput.status data))
   then throwR ForbiddenError
   else retR data)%read.

Definition _validateUpdateForEmployee
    (id : Id) (data : BookingInput.t) (existingData : Booking.t) : R unit :=
  if includes [CANCELLED; COMPLETED] (Booking.status existingData)
  then throwR ForbiddenError
  else if negb (status_eqb (Booking.status existingData) BOOKED) then
    if status_eqb (BookingInput.status data) BOOKED
    then throwR ForbiddenError
    else
      match Booking.owner existingData with
      | None =>
          throwR (TypeError "Cannot read properties of null (reading 'id')")
      | Some ownerId =>
          if negb (BookingInput.owner data =? ownerId)%string
          then throwR ForbiddenError
          else
            match Booking.child existingData with
            | None =>
                throwR
                  (TypeError "Cannot read properties of null (reading 'id')")
            | Some childId =>
                if negb (BookingInput.child data =? childId)%string
                then throwR ForbiddenError
                else retR tt
            end
      end
  else retR tt.

(** Answers the payload as the role checks left it. *)
Definition _validateUpdate (id : Id) (data : BookingInput.t)
  : R BookingInput.t :=
  (_validatePeriodFuture data ;;;
   _validatePeriodAvailable (Some id) data ;;;
   existingData <- findById id ;;
   data <- (if UserRoleChecker.isChildOwner currentUser
            then _validateUpdateForChildOwner id data existingData
            else retR data) ;;
   (if UserRoleChecker.isEmployee currentUser
    then _validateUpdateForEmployee id data existingData
    else retR tt) ;;;
   _validateChildAndOwnerMatch data ;;;
   retR data)%read.

Definition calculateFee (data : BookingInput.t) : R Z :=
  (settings <- SettingsService.findOrCreateDefault currentUser ;;
   retR (calculate (BookingInput.arrival data) (BookingInput.departure data)
           (dailyFee settings)))%read.

Definition _hasChangedEmployeeNotesOrPhotos
    (id : Id) (newRecord : BookingInput.t) : R bool :=
  (oldRecord <- findById id ;;
   if truthyOpt (BookingInput.employeeNotes newRecord)
      && optStrNeq (Booking.employeeNotes oldRecord)
           (BookingInput.employeeNotes newRecord)
   then retR true
   else
     match BookingInput.photos newRecord with
     | None => retR false
     | Some [] => retR false
     | Some newPhotos =>
         retR
           (existsb
              (fun photo =>
                 let notInOldRecord :=
                   negb
                     (existsb
                        (fun oldPhoto =>
                           (photo_id oldPhoto =? photo_id photo)%string)
                        (Booking.photos oldRecord)) in
                 notInOldRecord)
              newPhotos)
     end)%read.

Definition _mustSendBookingUpdateEmail
    (id : Id) (newRecord : BookingInput.t) : R bool :=
  if negb (status_eqb (BookingInput.status newRecord) PROGRESS)
  then retR false
  else _hasChangedEmployeeNotesOrPhotos id newRecord.

(** emails/bookingUpdateEmail and shared/email/emailSender are not among
    the sources: sending is the event an observer sees. *)
Definition _sendBookingUpdateEmail (booking : Booking.t) : M unit :=
  fun w => (inr tt, mkWorld (db w) (clock w) (log w ++ [EmailSent booking])).

(** [autoId] is the id Firestore assigns to the new document. *)
Definition create (autoId : Id) (data : BookingInput.t) : M Booking.t :=
  (liftR (_validateCreate data) ;;;
   fee <- liftR (calculateFee data) ;;
   let data := BookingInput.set_fee (Some fee) data in
   batch <- AbstractRepository.createBatch ;;
   let (record, batch) :=
     BookingRepository.create autoId data batch currentUser in
   AbstractRepository.commitBatch batch ;;;
   liftR (BookingRepository.findById (Booking.id record)))%op.

Definition update (id : Id) (data : BookingInput.t) : M Booking.t :=
  (data <- liftR (_validateUpdate id data) ;;
   fee <- liftR (calculateFee data) ;;
   let data := BookingInput.set_fee (Some fee) data in
   mustSendBookingUpdateEmail <- liftR (_mustSendBookingUpdateEmail id data) ;;
   batch <- AbstractRepository.createBatch ;;
   written <- liftR (BookingRepository.update id data batch currentUser) ;;
   let (record, batch) := (written : Booking.t * Batch) in
   AbstractRepository.commitBatch batch ;;;
   record <- liftR (BookingRepository.findById (Booking.id record)) ;;
   (if (mustSendBookingUpdateEmail : bool)
    then _sendBookingUpdateEmail record
    else retM tt) ;;;
   retM record)%op.

Fixpoint destroyEach (ids : list Id) (batch : Batch) : Batch :=
  match ids with
  | [] => batch
  | id :: rest =>
      destroyEach rest (BookingRepository.destroy id batch currentUser)
  end.

Definition destroyAll (ids : list Id) : M unit :=
  (batch <- AbstractRepository.createBatch ;;
   AbstractRepository.commitBatch (destroyEach ids batch))%op.

(** [args.filter = { ...args.filter, owner: this.currentUser.id }] *)
Definition spreadOwner (filter : option BookingFilter) (owner : Id)
  : BookingFilter :=
  let f := match filter with
           | Some f => f
           | None => emptyFilter
           end in
  mkFilter (filter_id f) (Some owner) (filter_child f)
    (filter_arrivalRange f) (filter_departureRange f) (filter_period f)
    (filter_status f) (filter_feeRange f) (filter_createdAtRange f).

(** The [args] that [findAndCountAll] hands to the repository. *)
Definition findAndCountAll_args (args : Args) : Args :=
  if UserRoleChecker.isChildOwner currentUser then
    mkArgs (Some (spreadOwner (args_filter args) (user_id currentUser)))
      (args_limit args) (args_offset args) (args_orderBy args)
  else args.

Variable rows : Query -> list Booking.t -> list Booking.t.
Variable count : Query -> list Booking.t -> Z.

Definition findAndCountAll (args : Args) : R (list Booking.t * Z) :=
  BookingRepository.findAndCountAll rows count (findAndCountAll_args args).

Variable autocompleteRows
  : AutocompleteQuery -> list Booking.t -> list Booking.t.

(** [!filter || !filter.owner || filter.owner !== this.currentUser.id] *)
Definition notOwnFilter (filter : option AutocompleteFilter) : bool :=
  match filter with
  | None => true
  | Some f =>
      negb (truthyOpt (autocomplete_owner f))
      || optStrNeq (autocomplete_owner f) (Some (user_id currentUser))
  end.

Definition findAllAutocomplete
    (filter : option AutocompleteFilter) (limit : option Z)
  : R (list AutocompleteItem) :=
  ((if UserRoleChecker.isChildOwner currentUser then
      if notOwnFilter filter then throwR ForbiddenError else retR tt
    else retR tt) ;;;
   BookingRepository.findAllAutocomplete autocompleteRows filter limit)%read.

End Service.

End BookingService.

(** ** The child payload and listing arguments *)

(** database/models/child: the enumerators of [type] and [size]. *)
Inductive ChildType : Type := boy | girl.

Inductive ChildSize : Type := toddler | preschooler | schoolAged.

Module ChildInput.
(** The [data] payload of the child's create and update. *)
Record t : Type := mk {
  owner : Id;
  name : string;
  type : ChildType;
  breed : string;
  size : ChildSize;
  bookings : option (list Id)
}.

(** [data.owner = v] *)
Definition set_owner (v : Id) (d : t) : t :=
  mk v (name d) (type d) (breed d) (size d) (bookings d).
End ChildInput.

(** api/child/types/childFilterInput *)
Record ChildFilter : Type := mkChildFilter {
  childFilter_id : option Id;
  childFilter_owner : option Id;
  childFilter_name : option string;
  childFilter_type : option ChildType;
  childFilter_breed : option string;
  childFilter_size : option ChildSize;
  childFilter_createdAtRange : option Range
}.

(** The child filter [{}]. *)
Definition emptyChildFilter : ChildFilter :=
  mkChildFilter None None None None None None None.

Record ChildArgs : Type := mkChildArgs {
  childArgs_filter : option ChildFilter;
  childArgs_limit : Z;
  childArgs_offset : Z;
  childArgs_orderBy : option string
}.

(** ** services/childService *)

Module ChildService.

Section Service.

Variable currentUser : User.

Definition _validateFindById (record : Child.t) : R unit :=
  if UserRoleChecker.isChildOwner currentUser then
    match Child.owner record with
    | Some ownerId =>
        if negb (ownerId =? user_id currentUser)%string
        then throwR ForbiddenError
        else retR tt
    | None => retR tt
    end
  else retR tt.

Definition findById (id : Id) : R Child.t :=
  (record <- ChildRepository.findById id ;;
   _validateFindById record ;;;
   retR record)%read.

Definition _validateIsSameOwner (id : Id) : R unit :=
  (findById id ;;; retR tt)%read.

Definition _validateDestroy (id : Id) : R unit :=
  ((if UserRoleChecker.isChildOwner currentUser
    then _validateIsSameOwner id
    else retR tt) ;;;
   existsBookingForChild <- BookingRepository.existsForChild id ;;
   if (existsBookingForChild : bool) then
     throwR (ValidationError "entities.child.validation.bookingExists")
   else retR tt)%read.

(** The loop of [destroyAll]: each id is validated, then its deletion is
    queued on the batch. *)
Fixpoint destroyEach (ids : list Id) (batch : Batch) : M Batch :=
  match ids with
  | [] => retM batch
  | id :: rest =>
      (liftR (_validateDestroy id) ;;;
       destroyEach rest (ChildRepository.destroy id batch currentUser))%op
  end.

Definition destroyAll (ids : list Id) : M unit :=
  (batch <- AbstractRepository.createBatch ;;
   batch <- destroyEach ids batch ;;
   AbstractRepository.commitBatch batch)%op.

Definition _validateCreate (data : ChildInput.t) : R unit :=
  if UserRoleChecker.isChildOwner currentUser then
    if negb (ChildInput.owner data =? user_id currentUser)%string
    then throwR ForbiddenError
    else retR tt
  else retR tt.

(** Answers the payload, whose [owner] it has overwritten for a
    child-owner. *)
Definition _validateUpdate (id : Id) (data : ChildInput.t)
  : R ChildInput.t :=
  if UserRoleChecker.isChildOwner currentUser then
    let data := ChildInput.set_owner (user_id currentUser) data in
    (_validateIsSameOwner id ;;; retR data)%read
  else retR data.

(** [create] and [update] of ChildRepository are inherited from
    AbstractEntityRepository, which is not among the sources: given the
    payload and [{ batch, currentUser }], each answers a record and the
    batch with its writes queued. *)
Variable repositoryCreate
  : ChildInput.t -> Batch -> User -> Child.t * Batch.
Variable repositoryUpdate
  : Id -> ChildInput.t -> Batch -> User -> Child.t * Batch.

Definition create (data : ChildInput.t) : M Child.t :=
  (liftR (_validateCreate data) ;;;
   batch <- AbstractRepository.createBatch ;;
   let (record, batch) := repositoryCreate data batch currentUser in
   AbstractRepository.commitBatch batch ;;;
   liftR (ChildRepository.findById (Child.id record)))%op.

Definition update (id : Id) (data : ChildInput.t) : M Child.t :=
  (data <- liftR (_validateUpdate id data) ;;
   batch <- AbstractRepository.createBatch ;;
   let (record, batch) := repositoryUpdate id data batch currentUser in
   AbstractRepository.commitBatch batch ;;;
   liftR (ChildRepository.findById (Child.id record)))%op.

(** [args.filter = { ...args.filter, owner: this.currentUser.id }] *)
Definition spreadOwner (filter : option ChildFilter) (owner : Id)
  : ChildFilter :=
  let f := match filter with
           | Some f => f
           | None => emptyChildFilter
           end in
  mkChildFilter (childFilter_id f) (Some owner) (childFilter_name f)
    (childFilter_type f) (childFilter_breed f) (childFilter_size f)
    (childFilter_createdAtRange f).

(** The [args] that [findAndCountAll] hands to the repository. *)
Definition findAndCountAll_args (args : ChildArgs) : ChildArgs :=
  if UserRoleChecker.isChildOwner currentUser then
    mkChildArgs
      (Some (spreadOwner (childArgs_filter args) (user_id currentUser)))
      (childArgs_limit args) (childArgs_offset args) (childArgs_orderBy args)
  else args.

(** [findAndCountAll] of ChildRepository is not among the sources. *)
Variable repositoryFindAndCountAll : ChildArgs -> R (list Child.t * Z).

Definition findAndCountAll (args : ChildArgs) : R (list Child.t * Z) :=
  repositoryFindAndCountAll (findAndCountAll_args args).

End Service.

End ChildService.

(** * Specification-side definitions *)

(** ** Capacity admission, as specified *)

(** The count of section 4.2, in the specification's words: bookings
    whose status is BOOKED or PROGRESS, whose departure is at or after
    the period's start, whose arrival is at or before its end, the
    excluded booking apart. *)
Definition countActiveOverlapping
    (bookings : list Booking.t) (periodStart periodEnd : Z)
    (excludeId : option Id) : Z :=
  Z.of_nat
    (List.length
       (filter
          (fun b =>
             (status_eqb (Booking.status b) BOOKED
              || status_eqb (Booking.status b) PROGRESS)
             && (periodStart <=? Booking.departure b)
             && (Booking.arrival b <=? periodEnd)
             && match excludeId with
                | Some x => if truthy x
                            then negb (Booking.id b =? x)%string
                            else true
                | None => true
                end)
          bookings)).

(** ** A small hotel to run the services in *)

Definition alice : User := mkUser "alice" [childOwner].
Definition mallory : User := mkUser "mallory" [childOwner].
Definition erin : User := mkUser "erin" [employee].

(** Modelled from the spec: bookingFeeCalculator is not among the
    sources; the fee is the number of calendar days the period spans
    times the daily fee.  Used to run the services on the hotel below. *)
Definition calendarDaysFee (arrival departure dailyFee : Z) : Z :=
  ((departure - arrival) / 86400000 + 1) * dailyFee.

Definition rex : Child.t := Child.mk "rex" (Some "alice") ["b1"].

Definition b1 : Booking.t :=
  Booking.mk "b1" (Some "alice") (Some "rex") 100 200 BOOKED (Some 10)
    None [].

Definition b2 : Booking.t :=
  Booking.mk "b2" (Some "alice") (Some "rex") 100 200 PROGRESS (Some 10)
    (Some "ate well") [].

(** One booking, room for one more. *)
Definition hotel : World :=
  mkWorld (mkDatabase [b1] [rex] (mkSettings 2 10)) 50 [].

(** One booking, and no room left. *)
Definition fullHotel : World :=
  mkWorld (mkDatabase [b1] [rex] (mkSettings 1 10)) 50 [].

(** A stay in progress. *)
Definition busyHotel : World :=
  mkWorld
    (mkDatabase [b2] [Child.mk "rex" (Some "alice") ["b2"]]
       (mkSettings 2 10))
    50 [].

(** ** The role-gated table, as specified *)

(** The role-gated table of section 4.4, in the specification's words.
    A child-owner may update only a booking that is BOOKED, and only to
    BOOKED or CANCELLED. *)
Definition childOwnerMayUpdate (existing requested : bookingStatus) : bool :=
  status_eqb existing BOOKED
  && (status_eqb requested BOOKED || status_eqb requested CANCELLED).

(** An employee may not modify a booking that is CANCELLED or COMPLETED;
    when it is not BOOKED, the status may not go back to BOOKED and the
    owner and the child may not change. *)
Definition employeeMayUpdate
    (existing requested : bookingStatus) (sameOwner sameChild : bool) : bool :=
  negb (status_eqb existing CANCELLED || status_eqb existing COMPLETED)
  && (status_eqb existing BOOKED
      || (negb (status_eqb requested BOOKED) && sameOwner && sameChild)).

(** [relation.id === value], false when the relation is [null]. *)
Definition relationIs (relation : option Id) (value : Id) : bool :=
  match relation with
  | Some i => (value =? i)%string
  | None => false
  end.

(** ** Vocabulary of the statements below *)

(** The world after a batch has been committed. *)
Definition committed (batch : Batch) (w : World) : World :=
  mkWorld (fold_left AbstractRepository.applyOp batch (db w)) (clock w)
    (log w ++ [Committed batch]).

(** The world after an email has been sent. *)
Definition emailed (record : Booking.t) (w : World) : World :=
  mkWorld (db w) (clock w) (log w ++ [EmailSent record]).

(** The payload create and update persist: the fee is the calculator's. *)
Definition priced (calculate : Z -> Z -> Z -> Z) (data : BookingInput.t)
    (w : World) : BookingInput.t :=
  BookingInput.set_fee
    (Some (calculate (BookingInput.arrival data) (BookingInput.departure data)
             (dailyFee (settingsDoc (db w)))))
    data.

(** The payload as the referential check of update meets it. *)
Definition checkedPayload (currentUser : User) (data : BookingInput.t)
  : BookingInput.t :=
  if UserRoleChecker.isChildOwner currentUser
  then BookingInput.set_owner (user_id currentUser) data
  else data.

(** The photos of a payload, none when the field is absent. *)
Definition payloadPhotos (data : BookingInput.t) : list Photo :=
  match BookingInput.photos data with
  | Some l => l
  | None => []
  end.

(** When the email of update is due, as the code decides it: the
    requested status is PROGRESS, and the payload's notes are non-empty
    and differ from the record's, or one of its photos has an id that no
    photo of the record has. *)
Definition emailIsDue (old : Booking.t) (data : BookingInput.t) : Prop :=
  BookingInput.status data = PROGRESS
  /\ ((truthyOpt (BookingInput.employeeNotes data) = true
       /\ Booking.employeeNotes old <> BookingInput.employeeNotes data)
      \/ exists photo,
          In photo (payloadPhotos data)
          /\ forall oldPhoto,
              In oldPhoto (Booking.photos old) ->
              photo_id oldPhoto <> photo_id photo).

(** A booking references the child. *)
Definition referenced (childId : Id) (w : World) : Prop :=
  exists booking,
    In booking (bookingCollection (db w))
    /\ Booking.child booking = Some childId.

(** The ownership check that [_validateDestroy] runs first. *)
Definition ownershipCheck (currentUser : User) (id : Id) : R unit :=
  if UserRoleChecker.isChildOwner currentUser
  then ChildService._validateIsSameOwner currentUser id
  else retR tt.



(** ** Further vocabulary and fixtures *)

(** An actor who is neither child-owner nor employee. *)
Definition morgan : User := mkUser "morgan" [manager].

Definition b3 : Booking.t :=
  Booking.mk "b3" (Some "alice") (Some "rex") 100 200 CANCELLED (Some 10)
    None [].

(** A cancelled stay. *)
Definition quietHotel : World :=
  mkWorld
    (mkDatabase [b3] [Child.mk "rex" (Some "alice") ["b3"]]
       (mkSettings 2 10))
    50 [].

(** The record may be read by the actor: the actor is no child-owner, or
    the record has no owner, or the actor is its owner. *)
Definition visibleTo (currentUser : User) (owner : option Id) : Prop :=
  UserRoleChecker.isChildOwner currentUser = false
  \/ owner = None
  \/ owner = Some (user_id currentUser).

(** A child nobody has booked, and a hotel that knows both children. *)
Definition bo : Child.t := Child.mk "bo" (Some "alice") [].

Definition nursery : World :=
  mkWorld (mkDatabase [b1] [rex; bo] (mkSettings 2 10)) 50 [].



(** [ids.includes(id)] *)
Definition listed (ids : list Id) (id : Id) : bool :=
  existsb (String.eqb id) ids.

(** * Properties *)

(** ** Lists and strings *)

Lemma filter_twice {A} (f g : A -> bool) (l : list A) :
  filter f (filter g l) = filter (fun x => g x && f x) l.
Proof.
  induction l as [|x l IH]; simpl; [reflexivity|].
  destruct (g x); simpl; [destruct (f x)|]; rewrite IH; reflexivity.
Qed.

Lemma filter_ext_all {A} (f g : A -> bool) (l : list A) :
  (forall x, f x = g x) -> filter f l = filter g l.
Proof.
  intros H; induction l as [|x l IH]; simpl; [reflexivity|].
  rewrite H, IH; reflexivity.
Qed.

Lemma find_upsert r l :
  find (fun b => (Booking.id b =? Booking.id r)%string)
    (AbstractRepository.upsert r l) = Some r.
Proof.
  induction l as [|x l IH]; simpl.
  - rewrite String.eqb_refl. reflexivity.
  - destruct (Booking.id x =? Booking.id r)%string eqn:E; simpl.
    + rewrite String.eqb_refl. reflexivity.
    + rewrite E. exact IH.
Qed.

Lemma optStrNeq_spec a b : optStrNeq a b = true <-> a <> b.
Proof.
  destruct a as [x|], b as [y|]; simpl.
  - destruct (String.eqb_spec x y); simpl; split; intros H;
      try discriminate; try congruence.
  - split; [discriminate|reflexivity].
  - split; [discriminate|reflexivity].
  - split; [discriminate|congruence].
Qed.

(** [photos.some(photo => !old.some(oldPhoto => oldPhoto.id === photo.id))] *)
Lemma newPhoto_spec (newPhotos oldPhotos : list Photo) :
  existsb
    (fun photo =>
       negb
         (existsb
            (fun oldPhoto => (photo_id oldPhoto =? photo_id photo)%string)
            oldPhotos))
    newPhotos = true
  <-> exists photo,
      In photo newPhotos
      /\ forall oldPhoto,
          In oldPhoto oldPhotos -> photo_id oldPhoto <> photo_id photo.
Proof.
  rewrite existsb_exists. split.
  - intros (photo & Hin & H). exists photo. split; [exact Hin|].
    intros oldPhoto Ho E. apply negb_true_iff in H.
    assert (X : existsb (fun o => (photo_id o =? photo_id photo)%string)
                  oldPhotos = true).
    { apply existsb_exists. exists oldPhoto. split; [exact Ho|].
      apply String.eqb_eq, E. }
    congruence.
  - intros (photo & Hin & H). exists photo. split; [exact Hin|].
    apply negb_true_iff.
    destruct (existsb _ oldPhotos) eqn:X; [|reflexivity].
    apply existsb_exists in X. destruct X as (o & Ho & E).
    apply String.eqb_eq in E. exfalso. exact (H o Ho E).
Qed.

(** ** What the services do, step by step *)

Lemma findById_run currentUser id w :
  BookingService.findById currentUser id w
  = match BookingRepository.findDocument id w with
    | inl e => inl e
    | inr record =>
        match BookingService._validateFindById currentUser record w with
        | inl e => inl e
        | inr _ => inr record
        end
    end.
Proof.
  unfold BookingService.findById, BookingRepository.findById,
    BookingRepository.populate, bindR, retR.
  destruct (BookingRepository.findDocument id w); reflexivity.
Qed.

Lemma validateIsSameOwner_run currentUser id w :
  BookingService._validateIsSameOwner currentUser id w
  = match BookingService.findById currentUser id w with
    | inl e => inl e
    | inr _ => inr tt
    end.
Proof. reflexivity. Qed.

Lemma validateFindById_error currentUser record w e :
  BookingService._validateFindById currentUser record w = inl e ->
  e = ForbiddenError.
Proof.
  unfold BookingService._validateFindById, throwR, retR.
  destruct (UserRoleChecker.isChildOwner currentUser); [|discriminate].
  destruct (Booking.owner record); [|discriminate].
  destruct (negb _); [|discriminate].
  intros H; injection H as <-. reflexivity.
Qed.

(** The child-owner's check, once the ownership check has passed, is the
    table's verdict. *)
Lemma validateUpdateForChildOwner_run currentUser id data existing w :
  BookingService._validateUpdateForChildOwner currentUser id data existing w
  = match BookingService._validateIsSameOwner currentUser id w with
    | inl e => inl e
    | inr _ =>
        if childOwnerMayUpdate (Booking.status existing)
             (BookingInput.status data)
        then inr (BookingInput.set_owner (user_id currentUser) data)
        else inl ForbiddenError
    end.
Proof.
  unfold BookingService._validateUpdateForChildOwner, bindR.
  destruct (BookingService._validateIsSameOwner currentUser id w) as [e|[]];
    [reflexivity|].
  unfold childOwnerMayUpdate, includes, throwR, retR. simpl.
  destruct (Booking.status existing), (BookingInput.status data);
    reflexivity.
Qed.

(** The employee's check accepts exactly what the table allows. *)
Lemma validateUpdateForEmployee_isOk id data existing w :
  isOk (BookingService._validateUpdateForEmployee id data existing w)
  = employeeMayUpdate (Booking.status existing) (BookingInput.status data)
      (relationIs (Booking.owner existing) (BookingInput.owner data))
      (relationIs (Booking.child existing) (BookingInput.child data)).
Proof.
  unfold BookingService._validateUpdateForEmployee, employeeMayUpdate,
    relationIs, includes, throwR, retR.
  destruct (Booking.status existing), (BookingInput.status data);
    simpl; try reflexivity;
    destruct (Booking.owner existing) as [o|]; simpl; try reflexivity;
    destruct (BookingInput.owner data =? o)%string; simpl;
      try reflexivity;
    destruct (Booking.child existing) as [c|]; simpl; try reflexivity;
    destruct (BookingInput.child data =? c)%string; reflexivity.
Qed.

Lemma validateUpdateForEmployee_error id data existing w e :
  BookingService._validateUpdateForEmployee id data existing w = inl e ->
  Booking.owner existing <> None ->
  Booking.child existing <> None ->
  e = ForbiddenError.
Proof.
  unfold BookingService._validateUpdateForEmployee, throwR, retR.
  intros H Ho Hc.
  destruct (Booking.owner existing) as [o|]; [|contradiction].
  destruct (Booking.child existing) as [c|]; [|contradiction].
  destruct (includes [CANCELLED; COMPLETED] (Booking.status existing));
    [injection H as <-; reflexivity|].
  destruct (negb (status_eqb (Booking.status existing) BOOKED));
    [|discriminate].
  destruct (status_eqb (BookingInput.status data) BOOKED);
    [injection H as <-; reflexivity|].
  destruct (negb (BookingInput.owner data =? o)%string);
    [injection H as <-; reflexivity|].
  destruct (negb (BookingInput.child data =? c)%string);
    [injection H as <-; reflexivity|discriminate].
Qed.

(** create: either validation fails and nothing happens, or the record
    built from the priced payload is committed and answered. *)
Lemma create_run currentUser calculate autoId data w :
  BookingService.create currentUser calculate autoId data w
  = match BookingService._validateCreate currentUser data w with
    | inl e => (inl e, w)
    | inr _ =>
        let written :=
          BookingRepository.create autoId (priced calculate data w) []
            currentUser in
        (inr (fst written), committed (snd written) w)
    end.
Proof.
  unfold BookingService.create, bindM, liftR.
  destruct (BookingService._validateCreate currentUser data w) as [e|[]];
    [reflexivity|].
  unfold BookingService.calculateFee, SettingsService.findOrCreateDefault,
    bindR, retR, AbstractRepository.createBatch, retM,
    AbstractRepository.commitBatch, BookingRepository.findById,
    BookingRepository.populate, BookingRepository.findDocument, bindR, retR.
  cbn [BookingRepository.create fst snd app fold_left
       AbstractRepository.applyOp db bookingCollection Booking.id].
  match goal with
  | |- context [find _ (AbstractRepository.upsert ?r ?l)] =>
      pose proof (find_upsert r l) as F
  end.
  cbn [Booking.id] in F. rewrite F. reflexivity.
Qed.

(** update: either a check fails and nothing happens, or the record
    merged from the priced payload is committed and answered, and the
    email follows the commit when the decision taken before it says so. *)
Lemma update_run currentUser calculate id data w :
  BookingService.update currentUser calculate id data w
  = match BookingService._validateUpdate currentUser id data w with
    | inl e => (inl e, w)
    | inr data =>
        let data := priced calculate data w in
        match BookingService._mustSendBookingUpdateEmail currentUser id
                data w with
        | inl e => (inl e, w)
        | inr mustSendBookingUpdateEmail =>
            match BookingRepository.update id data [] currentUser w with
            | inl e => (inl e, w)
            | inr (record, batch) =>
                (inr record,
                 if mustSendBookingUpdateEmail
                 then emailed record (committed batch w)
                 else committed batch w)
            end
        end
    end.
Proof.
  unfold BookingService.update, bindM, liftR.
  destruct (BookingService._validateUpdate currentUser id data w)
    as [e|data1]; [reflexivity|].
  unfold BookingService.calculateFee, SettingsService.findOrCreateDefault,
    bindR, retR. fold (priced calculate data1 w).
  destruct (BookingService._mustSendBookingUpdateEmail currentUser id
              (priced calculate data1 w) w) as [e|must]; [reflexivity|].
  unfold AbstractRepository.createBatch, retM.
  unfold BookingRepository.update, bindR, retR.
  destruct (BookingRepository.findDocument id w) as [e|existing];
    [reflexivity|].
  unfold AbstractRepository.commitBatch, BookingRepository.findById,
    BookingRepository.populate, BookingRepository.findDocument, bindR, retR.
  cbn [app fold_left AbstractRepository.applyOp db bookingCollection
       Booking.id].
  match goal with
  | |- context [find _ (AbstractRepository.upsert ?r ?l)] =>
      pose proof (find_upsert r l) as F
  end.
  cbn [Booking.id] in F. rewrite F.
  destruct must; reflexivity.
Qed.

(** The role checks of update change nothing of the payload but,
    for a child-owner, its owner. *)
Lemma validateUpdate_payload currentUser id data w data' :
  BookingService._validateUpdate currentUser id data w = inr data' ->
  data' = (if UserRoleChecker.isChildOwner currentUser
           then BookingInput.set_owner (user_id currentUser) data
           else data).
Proof.
  unfold BookingService._validateUpdate, bindR, retR.
  destruct (BookingService._validatePeriodFuture data w); [discriminate|].
  destruct (BookingService._validatePeriodAvailable currentUser (Some id)
              data w); [discriminate|].
  destruct (BookingService.findById currentUser id w) as [e|existing];
    [discriminate|].
  destruct (UserRoleChecker.isChildOwner currentUser).
  - pose proof (validateUpdateForChildOwner_run currentUser id data
                  existing w) as T.
    destruct (BookingService._validateUpdateForChildOwner currentUser id data
                existing w) as [e|d]; [discriminate|].
    destruct (BookingService._validateIsSameOwner currentUser id w);
      [discriminate|].
    destruct (childOwnerMayUpdate _ _); [|discriminate].
    injection T as ->.
    destruct (if UserRoleChecker.isEmployee currentUser then _ else _);
      [discriminate|].
    destruct (BookingService._validateChildAndOwnerMatch _ w);
      [discriminate|].
    intros H; injection H as <-. reflexivity.
  - destruct (if UserRoleChecker.isEmployee currentUser then _ else _);
      [discriminate|].
    destruct (BookingService._validateChildAndOwnerMatch _ w);
      [discriminate|].
    intros H; injection H as <-. reflexivity.
Qed.

(** Whatever update accepts, the table of each role the actor holds
    allows: the role checks are on the way of every update. *)
Lemma validateUpdate_accepts currentUser id data w data' :
  BookingService._validateUpdate currentUser id data w = inr data' ->
  exists existing,
    BookingService.findById currentUser id w = inr existing
    /\ (UserRoleChecker.isChildOwner currentUser = true ->
        childOwnerMayUpdate (Booking.status existing)
          (BookingInput.status data) = true)
    /\ (UserRoleChecker.isEmployee currentUser = true ->
        employeeMayUpdate (Booking.status existing)
          (BookingInput.status data)
          (relationIs (Booking.owner existing) (BookingInput.owner data'))
          (relationIs (Booking.child existing) (BookingInput.child data))
        = true).
Proof.
  unfold BookingService._validateUpdate, bindR, retR.
  destruct (BookingService._validatePeriodFuture data w); [discriminate|].
  destruct (BookingService._validatePeriodAvailable currentUser (Some id)
              data w); [discriminate|].
  destruct (BookingService.findById currentUser id w) as [e|existing] eqn:B;
    [discriminate|].
  assert (K : forall d,
             BookingInput.status d = BookingInput.status data ->
             BookingInput.child d = BookingInput.child data ->
             match
               (if UserRoleChecker.isEmployee currentUser
                then BookingService._validateUpdateForEmployee id d existing
                else fun _ => inr tt) w
             with
             | inl e => inl e
             | inr _ =>
                 match BookingService._validateChildAndOwnerMatch d w with
                 | inl e => inl e
                 | inr _ => inr d
                 end
             end = inr data' ->
             UserRoleChecker.isEmployee currentUser = true ->
             employeeMayUpdate (Booking.status existing)
               (BookingInput.status data)
               (relationIs (Booking.owner existing) (BookingInput.owner data'))
               (relationIs (Booking.child existing) (BookingInput.child data))
             = true).
  { intros d Hs Hc H Em. rewrite Em in H.
    destruct (BookingService._validateUpdateForEmployee id d existing w)
      as [e|[]] eqn:V; [discriminate|].
    destruct (BookingService._validateChildAndOwnerMatch d w);
      [discriminate|].
    injection H as <-.
    rewrite <- Hs, <- Hc,
      <- (validateUpdateForEmployee_isOk id d existing w), V.
    reflexivity. }
  destruct (UserRoleChecker.isChildOwner currentUser).
  - rewrite validateUpdateForChildOwner_run, validateIsSameOwner_run, B.
    destruct (childOwnerMayUpdate _ _) eqn:T; [|discriminate].
    intros H. exists existing. split; [reflexivity|].
    split; [intros _; exact T|].
    exact (K (BookingInput.set_owner (user_id currentUser) data)
             eq_refl eq_refl H).
  - intros H. exists existing. split; [reflexivity|].
    split; [discriminate|].
    exact (K data eq_refl eq_refl H).
Qed.

(** No check of update reads the fee the caller sent. *)
Lemma validateUpdate_set_fee currentUser id data w clientFee :
  BookingService._validateUpdate currentUser id
    (BookingInput.set_fee clientFee data) w
  = match BookingService._validateUpdate currentUser id data w with
    | inl e => inl e
    | inr data' => inr (BookingInput.set_fee clientFee data')
    end.
Proof.
  unfold BookingService._validateUpdate, bindR, retR.
  change (BookingService._validatePeriodFuture
            (BookingInput.set_fee clientFee data) w)
    with (BookingService._validatePeriodFuture data w).
  destruct (BookingService._validatePeriodFuture data w); [reflexivity|].
  change (BookingService._validatePeriodAvailable currentUser (Some id)
            (BookingInput.set_fee clientFee data) w)
    with (BookingService._validatePeriodAvailable currentUser (Some id)
            data w).
  destruct (BookingService._validatePeriodAvailable currentUser (Some id)
              data w); [reflexivity|].
  destruct (BookingService.findById currentUser id w) as [e|existing];
    [reflexivity|].
  destruct (UserRoleChecker.isChildOwner currentUser).
  - rewrite !validateUpdateForChildOwner_run.
    destruct (BookingService._validateIsSameOwner currentUser id w);
      [reflexivity|].
    change (BookingInput.status (BookingInput.set_fee clientFee data))
      with (BookingInput.status data).
    destruct (childOwnerMayUpdate _ _); [|reflexivity].
    set (d := BookingInput.set_owner (user_id currentUser) data).
    change (BookingInput.set_owner (user_id currentUser)
              (BookingInput.set_fee clientFee data))
      with (BookingInput.set_fee clientFee d).
    change (BookingService._validateUpdateForEmployee id
              (BookingInput.set_fee clientFee d) existing w)
      with (BookingService._validateUpdateForEmployee id d existing w).
    destruct (if UserRoleChecker.isEmployee currentUser then _ else _);
      [reflexivity|].
    change (BookingService._validateChildAndOwnerMatch
              (BookingInput.set_fee clientFee d) w)
      with (BookingService._validateChildAndOwnerMatch d w).
    destruct (BookingService._validateChildAndOwnerMatch d w); reflexivity.
  - change (BookingService._validateUpdateForEmployee id
              (BookingInput.set_fee clientFee data) existing w)
      with (BookingService._validateUpdateForEmployee id data existing w).
    destruct (if UserRoleChecker.isEmployee currentUser then _ else _);
      [reflexivity|].
    change (BookingService._validateChildAndOwnerMatch
              (BookingInput.set_fee clientFee data) w)
      with (BookingService._validateChildAndOwnerMatch data w).
    destruct (BookingService._validateChildAndOwnerMatch data w);
      reflexivity.
Qed.

(** ** Capacity admission *)

(** X1. On valid dates the repository's counter computes the count of
    section 4.2: for a period whose start and end are valid dates, over a
    collection whose bookings carry valid dates. *)
Lemma countActiveBookingsInPeriod_spec start end_ idToExclude w :
  validDate start = true ->
  validDate end_ = true ->
  (forall b,
      In b (bookingCollection (db w)) ->
      validDate (Booking.arrival b) = true
      /\ validDate (Booking.departure b) = true) ->
  BookingRepository.countActiveBookingsInPeriod start end_ idToExclude w
  = inr (countActiveOverlapping (bookingCollection (db w)) start end_
           idToExclude).
Proof.
  intros Hs He Hv.
  unfold BookingRepository.countActiveBookingsInPeriod, countActiveOverlapping.
  set (bs := bookingCollection (db w)) in *.
  set (results := filter (fun b => start <=? Booking.departure b) bs).
  match goal with
  | |- match results with [] => _ | _ :: _ => inr ?X end = _ =>
      transitivity (@inr Error Z X);
        [destruct results; reflexivity|]
  end.
  subst results. rewrite !filter_twice.
  do 3 f_equal. apply filter_ext_in. intros x Hx.
  destruct (Hv x Hx) as [Ha _].
  unfold isSameOrBefore, includes, truthyOpt, optStrNeq. rewrite Ha, He.
  simpl.
  destruct (status_eqb (Booking.status x) BOOKED),
           (status_eqb (Booking.status x) PROGRESS),
           (start <=? Booking.departure x),
           (Booking.arrival x <=? end_);
    simpl; try reflexivity;
    destruct idToExclude as [e|]; simpl; try reflexivity;
    destruct (truthy e), (Booking.id x =? e)%string; reflexivity.
Qed.

(** On the hotel: one active booking overlaps the period [150, 160]. *)
Lemma countActiveBookingsInPeriod_spec_witness :
  BookingRepository.countActiveBookingsInPeriod 150 160 None hotel = inr 1.
Proof.
  rewrite (countActiveBookingsInPeriod_spec 150 160 None hotel eq_refl
             eq_refl).
  - reflexivity.
  - intros b [<-|[]]. split; reflexivity.
Defined.

(** The service never finds the counter it asks the repository for. *)
Lemma isPeriodAvailable_throws currentUser start end_ idToExclude w :
  BookingService.isPeriodAvailable currentUser start end_ idToExclude w
  = inl (TypeError
           "this.repository.countActiveBookingInPeriod is not a function").
Proof. reflexivity. Qed.

(** C1, on the hotel: one active booking overlaps the period [150, 160]
    and the capacity is 2, so the period is available by the count of
    section 4.2; [isPeriodAvailable] answers neither true nor false but
    throws, because it calls [countActiveBookingInPeriod] where the
    repository declares [countActiveBookingsInPeriod]. *)
Example isPeriodAvailable_at_hotel :
  BookingRepository.countActiveBookingsInPeriod 150 160 None hotel = inr 1
  /\ countActiveOverlapping (bookingCollection (db hotel)) 150 160 None
     < capacity (settingsDoc (db hotel))
  /\ BookingService.isPeriodAvailable erin 150 160 None hotel
     = inl (TypeError
              "this.repository.countActiveBookingInPeriod is not a function").
Proof. repeat split. Qed.

Lemma validatePeriodAvailable_skipped currentUser id data w :
  includes [PROGRESS; BOOKED] (BookingInput.status data) = false ->
  BookingService._validatePeriodAvailable currentUser id data w = inr tt.
Proof.
  intros H. unfold BookingService._validatePeriodAvailable.
  rewrite H. reflexivity.
Qed.

Lemma validatePeriodAvailable_throws currentUser id data w :
  includes [PROGRESS; BOOKED] (BookingInput.status data) = true ->
  BookingService._validatePeriodAvailable currentUser id data w
  = inl (TypeError
           "this.repository.countActiveBookingInPeriod is not a function").
Proof.
  intros H. unfold BookingService._validatePeriodAvailable.
  rewrite H. reflexivity.
Qed.

(** C2, on the full hotel: the period [150, 160] is taken up to the
    capacity, so creating or updating a booking in PROGRESS should fail
    with ValidationError periodFull; both fail with the TypeError of the
    missing counter instead.  Nothing is written either way. *)
Example create_update_at_full_hotel :
  let data :=
    BookingInput.mk "alice" "rex" 150 160 PROGRESS None None None in
  let crowded :=
    mkWorld
      (mkDatabase [b1; b2] [Child.mk "rex" (Some "alice") ["b1"; "b2"]]
         (mkSettings 1 10))
      50 [] in
  countActiveOverlapping (bookingCollection (db fullHotel)) 150 160 None
  >= capacity (settingsDoc (db fullHotel))
  /\ BookingService.create erin calendarDaysFee "b9" data fullHotel
     = (inl (TypeError
               "this.repository.countActiveBookingInPeriod is not a function"),
        fullHotel)
  /\ countActiveOverlapping (bookingCollection (db crowded)) 150 160
       (Some "b1")
     >= capacity (settingsDoc (db crowded))
  /\ BookingService.update erin calendarDaysFee "b1" data crowded
     = (inl (TypeError
               "this.repository.countActiveBookingInPeriod is not a function"),
        crowded).
Proof. repeat split; intros H; discriminate H. Qed.

(** ** The booking state machine *)

(** C3, on the hotel: the table allows an employee to move the booked
    stay b1 to PROGRESS and allows alice, its owner, to save it as BOOKED
    again; each role check accepts the payload, the period lies ahead,
    by the count of section 4.2 it is available, and the owner is the
    child's.  Both updates are rejected all the same, with the TypeError
    of the counter that the repository does not have, and nothing is
    written. *)
Example allowed_transitions_are_rejected :
  let progress :=
    BookingInput.mk "alice" "rex" 100 200 PROGRESS None None None in
  let rebook :=
    BookingInput.mk "alice" "rex" 100 200 BOOKED None None None in
  employeeMayUpdate (Booking.status b1) (BookingInput.status progress)
    true true = true
  /\ BookingService._validateUpdateForEmployee "b1" progress b1 hotel
     = inr tt
  /\ childOwnerMayUpdate (Booking.status b1) (BookingInput.status rebook)
     = true
  /\ BookingService._validateUpdateForChildOwner alice "b1" rebook b1 hotel
     = inr rebook
  /\ BookingService._validatePeriodFuture rebook hotel = inr tt
  /\ countActiveOverlapping (bookingCollection (db hotel)) 100 200
       (Some "b1")
     < capacity (settingsDoc (db hotel))
  /\ BookingService._validateChildAndOwnerMatch progress hotel = inr tt
  /\ BookingService.update erin calendarDaysFee "b1" progress hotel
     = (inl (TypeError
               "this.repository.countActiveBookingInPeriod is not a function"),
        hotel)
  /\ BookingService.update alice calendarDaysFee "b1" rebook hotel
     = (inl (TypeError
               "this.repository.countActiveBookingInPeriod is not a function"),
        hotel).
Proof. repeat split. Qed.

(** X18. The role checks of update, taken by themselves, accept and
    reject exactly per the role-gated table.  For a child-owner, once the ownership check of the
    booking has passed, the payload is accepted when the table allows the
    pair (existing status, requested status) and fails Forbidden
    otherwise.  For an employee the payload is accepted exactly when the
    table allows (existing status, requested status, owner kept, child
    kept), and on an existing record whose owner and child are set every
    rejection is Forbidden.  In both tables COMPLETED and CANCELLED have
    no outgoing transition, and the employee's check fails Forbidden on
    every record in either state.  No update goes through against the
    table of a role its actor holds. *)
Theorem update_role_checks_follow_table :
  (forall currentUser id data existing w,
      BookingService._validateUpdateForChildOwner currentUser id data
        existing w
      = match BookingService._validateIsSameOwner currentUser id w with
        | inl e => inl e
        | inr _ =>
            if childOwnerMayUpdate (Booking.status existing)
                 (BookingInput.status data)
            then inr (BookingInput.set_owner (user_id currentUser) data)
            else inl ForbiddenError
        end)
  /\ (forall id data existing w,
         isOk (BookingService._validateUpdateForEmployee id data existing w)
         = employeeMayUpdate (Booking.status existing)
             (BookingInput.status data)
             (relationIs (Booking.owner existing) (BookingInput.owner data))
             (relationIs (Booking.child existing) (BookingInput.child data)))
  /\ (forall id data bid o c a d s f n p w,
         BookingService._validateUpdateForEmployee id data
           (Booking.mk bid (Some o) (Some c) a d s f n p) w
         = if employeeMayUpdate s (BookingInput.status data)
                (BookingInput.owner data =? o)%string
                (BookingInput.child data =? c)%string
           then inr tt
           else inl ForbiddenError)
  /\ (forall requested sameOwner sameChild,
         childOwnerMayUpdate COMPLETED requested = false
         /\ childOwnerMayUpdate CANCELLED requested = false
         /\ employeeMayUpdate COMPLETED requested sameOwner sameChild = false
         /\ employeeMayUpdate CANCELLED requested sameOwner sameChild = false)
  /\ (forall id data bid o c a d f n p w,
         BookingService._validateUpdateForEmployee id data
           (Booking.mk bid o c a d COMPLETED f n p) w
         = inl ForbiddenError
         /\ BookingService._validateUpdateForEmployee id data
              (Booking.mk bid o c a d CANCELLED f n p) w
            = inl ForbiddenError)
  /\ (forall currentUser calculate id data w record w',
         BookingService.update currentUser calculate id data w
         = (inr record, w') ->
         exists existing,
           BookingService.findById currentUser id w = inr existing
           /\ (UserRoleChecker.isChildOwner currentUser = true ->
               childOwnerMayUpdate (Booking.status existing)
                 (BookingInput.status data) = true)
           /\ (UserRoleChecker.isEmployee currentUser = true ->
               employeeMayUpdate (Booking.status existing)
                 (BookingInput.status data)
                 (relationIs (Booking.owner existing)
                    (BookingInput.owner (checkedPayload currentUser data)))
                 (relationIs (Booking.child existing)
                    (BookingInput.child data))
               = true)).
Proof.
  split; [|split; [|split; [|split; [|split]]]].
  - exact validateUpdateForChildOwner_run.
  - exact validateUpdateForEmployee_isOk.
  - intros id data bid o c a d s f n p w.
    unfold BookingService._validateUpdateForEmployee, employeeMayUpdate,
      includes, throwR, retR. simpl.
    destruct s, (BookingInput.status data); simpl; try reflexivity;
      destruct (BookingInput.owner data =? o)%string; simpl;
        try reflexivity;
      destruct (BookingInput.child data =? c)%string; reflexivity.
  - intros requested sameOwner sameChild. repeat split.
  - intros id data bid o c a d f n p w. split; reflexivity.
  - intros currentUser calculate id data w record w'. rewrite update_run.
    destruct (BookingService._validateUpdate currentUser id data w)
      as [e|data1] eqn:V; [discriminate|].
    intros _. pose proof (validateUpdate_payload _ _ _ _ _ V) as P.
    fold (checkedPayload currentUser data) in P. rewrite <- P.
    exact (validateUpdate_accepts _ _ _ _ _ V).
Qed.

(** On the hotel: alice cancels her booking, which the table allows. *)
Lemma update_role_checks_follow_table_witness :
  let data :=
    BookingInput.mk "alice" "rex" 100 200 CANCELLED None None None in
  exists existing,
    BookingService.findById alice "b1" hotel = inr existing
    /\ childOwnerMayUpdate (Booking.status existing)
         (BookingInput.status data) = true.
Proof.
  intros data.
  destruct (proj2 (proj2 (proj2 (proj2 (proj2
              update_role_checks_follow_table))))
              alice calendarDaysFee "b1" data hotel
              (Booking.mk "b1" (Some "alice") (Some "rex") 100 200 CANCELLED
                 (Some 10) None [])
              (snd (BookingService.update alice calendarDaysFee "b1" data
                      hotel))
              eq_refl)
    as (existing & Hf & Hc & _).
  exists existing. split; [exact Hf|]. apply Hc. reflexivity.
Defined.

(** ** Period validation *)

(** C4. When the target status is BOOKED, a payload whose arrival is
    strictly after its departure, or strictly before the current instant,
    fails validation with a ValidationError (arrivalAfterDeparture in the
    first case, periodPast otherwise), and so do create and update, which
    leave the world untouched; when the target status is not BOOKED,
    neither period check is applied.  Arrival, departure and the current
    instant are dates, that is, counts within the range of a JavaScript
    Date. *)
Theorem period_checks_apply_to_booked_only :
  (forall currentUser calculate autoId id data w,
      BookingInput.status data = BOOKED ->
      validDate (BookingInput.arrival data) = true ->
      validDate (BookingInput.departure data) = true ->
      validDate (clock w) = true ->
      BookingInput.departure data < BookingInput.arrival data
      \/ BookingInput.arrival data < clock w ->
      let key :=
        if BookingInput.departure data <? BookingInput.arrival data
        then "entities.booking.validation.arrivalAfterDeparture"
        else "entities.booking.validation.periodPast" in
      BookingService._validatePeriodFuture data w
      = inl (ValidationError key)
      /\ BookingService.create currentUser calculate autoId data w
         = (inl (ValidationError key), w)
      /\ BookingService.update currentUser calculate id data w
         = (inl (ValidationError key), w))
  /\ (forall data w,
         BookingInput.status data <> BOOKED ->
         BookingService._validatePeriodFuture data w = inr tt).
Proof.
  split.
  - intros currentUser calculate autoId id data w Hs Va Vd Vc Hp key.
    assert (E : BookingService._validatePeriodFuture data w
                = inl (ValidationError key)).
    { unfold BookingService._validatePeriodFuture, isAfter, throwR, retR,
        bindR, moment.
      subst key. rewrite Hs, Va, Vd. simpl.
      destruct (Z.ltb_spec (BookingInput.departure data)
                  (BookingInput.arrival data)); [reflexivity|].
      rewrite Vc. simpl.
      destruct (Z.ltb_spec (BookingInput.arrival data) (clock w));
        [reflexivity|lia]. }
    split; [exact E|].
    unfold BookingService.create, BookingService.update,
      BookingService._validateCreate, BookingService._validateUpdate,
      bindM, liftR, bindR.
    rewrite E. split; reflexivity.
  - intros data w Hs.
    unfold BookingService._validatePeriodFuture, retR.
    destruct (BookingInput.status data); try reflexivity.
    contradiction Hs; reflexivity.
Qed.

(** On the hotel: a stay that ends before it starts, a stay that started
    before now, and a cancellation the period checks do not look at. *)
Lemma period_checks_apply_to_booked_only_witness :
  BookingService.create alice calendarDaysFee "b9"
    (BookingInput.mk "alice" "rex" 40 30 BOOKED None None None) hotel
  = (inl (ValidationError
            "entities.booking.validation.arrivalAfterDeparture"), hotel)
  /\ BookingService.update alice calendarDaysFee "b1"
       (BookingInput.mk "alice" "rex" 40 60 BOOKED None None None) hotel
     = (inl (ValidationError "entities.booking.validation.periodPast"),
        hotel)
  /\ BookingService._validatePeriodFuture
       (BookingInput.mk "alice" "rex" 40 30 CANCELLED None None None) hotel
     = inr tt.
Proof.
  split; [|split].
  - apply (proj1 period_checks_apply_to_booked_only alice calendarDaysFee
             "b9" "b1"
             (BookingInput.mk "alice" "rex" 40 30 BOOKED None None None)
             hotel eq_refl eq_refl eq_refl eq_refl (or_introl eq_refl)).
  - apply (proj1 period_checks_apply_to_booked_only alice calendarDaysFee
             "b9" "b1"
             (BookingInput.mk "alice" "rex" 40 60 BOOKED None None None)
             hotel eq_refl eq_refl eq_refl eq_refl (or_intror eq_refl)).
  - apply (proj2 period_checks_apply_to_booked_only
             (BookingInput.mk "alice" "rex" 40 30 CANCELLED None None None)
             hotel).
    discriminate.
Defined.

(** ** The fee *)

(** C6. On every create and every update that goes through, the fee of
    the persisted record is the calculator's, from the payload's arrival
    and departure and the daily fee of the settings as they stand at the
    call; the fee the caller sent is overwritten: whatever it is, create
    and update answer the same and leave the same world. *)
Theorem fee_is_recomputed currentUser calculate autoId id data w :
  let fee :=
    calculate (BookingInput.arrival data) (BookingInput.departure data)
      (dailyFee (settingsDoc (db w))) in
  (forall record w',
      BookingService.create currentUser calculate autoId data w
      = (inr record, w') ->
      Booking.fee record = Some fee
      /\ BookingRepository.findDocument autoId w' = inr record)
  /\ (forall record w',
         BookingService.update currentUser calculate id data w
         = (inr record, w') ->
         Booking.fee record = Some fee
         /\ BookingRepository.findDocument id w' = inr record)
  /\ (forall clientFee,
         BookingService.create currentUser calculate autoId
           (BookingInput.set_fee clientFee data) w
         = BookingService.create currentUser calculate autoId data w)
  /\ (forall clientFee,
         BookingService.update currentUser calculate id
           (BookingInput.set_fee clientFee data) w
         = BookingService.update currentUser calculate id data w).
Proof.
  intros fee. split; [|split; [|split]].
  - intros record w'. rewrite create_run.
    destruct (BookingService._validateCreate currentUser data w);
      [discriminate|].
    cbn [BookingRepository.create fst snd app].
    intros H; injection H as <- <-. split; [reflexivity|].
    unfold BookingRepository.findDocument, committed.
    cbn [fold_left AbstractRepository.applyOp db bookingCollection].
    match goal with
    | |- context [find _ (AbstractRepository.upsert ?r ?l)] =>
        pose proof (find_upsert r l) as F
    end.
    cbn [Booking.id] in F. rewrite F. reflexivity.
  - intros record w'. rewrite update_run.
    destruct (BookingService._validateUpdate currentUser id data w)
      as [e|data1] eqn:V; [discriminate|].
    apply validateUpdate_payload in V.
    assert (A : BookingInput.arrival data1 = BookingInput.arrival data
                /\ BookingInput.departure data1 = BookingInput.departure data).
    { subst data1. destruct (UserRoleChecker.isChildOwner currentUser);
        split; reflexivity. }
    destruct A as [Ha Hd]. cbv zeta.
    destruct (BookingService._mustSendBookingUpdateEmail currentUser id _ w)
      as [e|must]; [discriminate|].
    unfold BookingRepository.update, bindR, retR.
    destruct (BookingRepository.findDocument id w) as [e|existing];
      [discriminate|].
    intros H; injection H as <- <-. split.
    + cbn [Booking.fee priced BookingInput.set_fee BookingInput.fee].
      rewrite Ha, Hd. reflexivity.
    + match goal with
      | |- context [SetBooking ?r] =>
          pose proof (find_upsert r (bookingCollection (db w))) as F
      end.
      cbn [Booking.id] in F.
      destruct must; unfold BookingRepository.findDocument, emailed, committed;
        cbn [fold_left app AbstractRepository.applyOp db bookingCollection];
        rewrite F; reflexivity.
  - intros clientFee. rewrite !create_run. reflexivity.
  - intros clientFee. rewrite !update_run, validateUpdate_set_fee.
    destruct (BookingService._validateUpdate currentUser id data w);
      reflexivity.
Qed.

(** On the hotel: erin records a two-day stay for which the caller sent
    a fee of 1; three calendar days at 10 a day are persisted. *)
Lemma fee_is_recomputed_witness :
  let data :=
    BookingInput.mk "alice" "rex" 0 172800000 CANCELLED (Some 1) None None in
  let created :=
    Booking.mk "b9" (Some "alice") (Some "rex") 0 172800000 CANCELLED
      (Some 30) None [] in
  let updated :=
    Booking.mk "b1" (Some "alice") (Some "rex") 0 172800000 CANCELLED
      (Some 30) None [] in
  fst (BookingService.create erin calendarDaysFee "b9" data hotel)
  = inr created
  /\ Booking.fee created = Some (calendarDaysFee 0 172800000 10)
  /\ fst (BookingService.update erin calendarDaysFee "b1" data hotel)
     = inr updated
  /\ Booking.fee updated = Some (calendarDaysFee 0 172800000 10).
Proof.
  intros data created updated.
  pose proof (fee_is_recomputed erin calendarDaysFee "b9" "b1" data hotel)
    as (Hc & Hu & _ & _).
  split; [reflexivity|]. split.
  - apply (Hc created
             (snd (BookingService.create erin calendarDaysFee "b9" data
                     hotel)) eq_refl).
  - split; [reflexivity|].
    apply (Hu updated
             (snd (BookingService.update erin calendarDaysFee "b1" data
                     hotel)) eq_refl).
Defined.

(** ** The owner of the payload and the owner of the child *)

Lemma childAndOwnerMatch_forbidden data child ownerId w :
  ChildRepository.findById (BookingInput.child data) w = inr child ->
  Child.owner child = Some ownerId ->
  ownerId <> BookingInput.owner data ->
  BookingService._validateChildAndOwnerMatch data w = inl ForbiddenError.
Proof.
  intros Hc Ho Hn.
  unfold BookingService._validateChildAndOwnerMatch, bindR.
  rewrite Hc, Ho.
  destruct (String.eqb_spec ownerId (BookingInput.owner data));
    [contradiction|reflexivity].
Qed.

(** C5, as stated, fails on the hotel: alice, a child-owner, updates her
    booking with a payload whose owner is mallory, who does not own the
    child; the update overwrites the payload's owner with alice's id,
    passes and is committed. *)
Example update_with_foreign_owner_passes :
  let data :=
    BookingInput.mk "mallory" "rex" 100 200 CANCELLED None None None in
  ChildRepository.findById (BookingInput.child data) hotel = inr rex
  /\ Child.owner rex <> Some (BookingInput.owner data)
  /\ BookingService.update alice calendarDaysFee "b1" data hotel
     = (inr (Booking.mk "b1" (Some "alice") (Some "rex") 100 200 CANCELLED
               (Some 10) None []),
        mkWorld
          (mkDatabase
             [Booking.mk "b1" (Some "alice") (Some "rex") 100 200 CANCELLED
                (Some 10) None []]
             [rex] (mkSettings 2 10))
          50
          [Committed
             [SetBooking
                (Booking.mk "b1" (Some "alice") (Some "rex") 100 200
                   CANCELLED (Some 10) None []);
              AddChildBooking "rex" "b1"]]).
Proof.
  split; [reflexivity|]. split; [discriminate|]. vm_compute. reflexivity.
Qed.

(** create with a mismatched owner: the validation fails, with Forbidden
    once the period checks have passed. *)
Lemma validateCreate_mismatch currentUser data child ownerId w :
  ChildRepository.findById (BookingInput.child data) w = inr child ->
  Child.owner child = Some ownerId ->
  ownerId <> BookingInput.owner data ->
  (exists e, BookingService._validateCreate currentUser data w = inl e)
  /\ (BookingService._validatePeriodFuture data w = inr tt ->
      BookingService._validatePeriodAvailable currentUser None data w
      = inr tt ->
      BookingService._validateCreate currentUser data w
      = inl ForbiddenError).
Proof.
  intros Hc Ho Hn.
  pose proof (childAndOwnerMatch_forbidden data child ownerId w Hc Ho Hn)
    as F.
  assert (T : match
                (if UserRoleChecker.isChildOwner currentUser
                 then
                   if negb (BookingInput.owner data
                            =? user_id currentUser)%string
                   then throwR ForbiddenError
                   else if negb (status_eqb (BookingInput.status data) BOOKED)
                        then throwR ForbiddenError
                        else retR tt
                 else retR tt) w
              with
              | inl e => inl e
              | inr _ => BookingService._validateChildAndOwnerMatch data w
              end = @inl Error unit ForbiddenError).
  { rewrite F.
    destruct (UserRoleChecker.isChildOwner currentUser); [|reflexivity].
    destruct (negb (BookingInput.owner data =? user_id currentUser)%string);
      [reflexivity|].
    destruct (negb (status_eqb (BookingInput.status data) BOOKED));
      reflexivity. }
  unfold BookingService._validateCreate, bindR. split.
  - destruct (BookingService._validatePeriodFuture data w) as [e|[]];
      [exists e; reflexivity|].
    destruct (BookingService._validatePeriodAvailable currentUser None data w)
      as [e|[]]; [exists e; reflexivity|].
    exists ForbiddenError. exact T.
  - intros -> ->. exact T.
Qed.

(** update with a mismatched owner: the validation fails, with Forbidden
    once the period checks have passed on a booking that is there with
    its owner and child set. *)
Lemma validateUpdate_mismatch currentUser id data child ownerId w :
  ChildRepository.findById (BookingInput.child data) w = inr child ->
  Child.owner child = Some ownerId ->
  ownerId <> BookingInput.owner (checkedPayload currentUser data) ->
  (exists e, BookingService._validateUpdate currentUser id data w = inl e)
  /\ (forall existing,
         BookingService._validatePeriodFuture data w = inr tt ->
         BookingService._validatePeriodAvailable currentUser (Some id) data w
         = inr tt ->
         BookingRepository.findDocument id w = inr existing ->
         Booking.owner existing <> None ->
         Booking.child existing <> None ->
         BookingService._validateUpdate currentUser id data w
         = inl ForbiddenError).
Proof.
  intros Hc Ho Hn.
  assert (F : BookingService._validateChildAndOwnerMatch
                (checkedPayload currentUser data) w = inl ForbiddenError).
  { apply (childAndOwnerMatch_forbidden _ child ownerId); try assumption.
    unfold checkedPayload.
    destruct (UserRoleChecker.isChildOwner currentUser); exact Hc. }
  unfold checkedPayload in F.
  unfold BookingService._validateUpdate, bindR. split.
  - destruct (BookingService._validatePeriodFuture data w) as [e|[]];
      [exists e; reflexivity|].
    destruct (BookingService._validatePeriodAvailable currentUser (Some id)
                data w) as [e|[]]; [exists e; reflexivity|].
    destruct (BookingService.findById currentUser id w) as [e|existing] eqn:B;
      [exists e; reflexivity|].
    destruct (UserRoleChecker.isChildOwner currentUser).
    + rewrite validateUpdateForChildOwner_run, validateIsSameOwner_run, B.
      destruct (childOwnerMayUpdate _ _); [|exists ForbiddenError; reflexivity].
      destruct (if UserRoleChecker.isEmployee currentUser then _ else _)
        as [e|[]]; [exists e; reflexivity|].
      rewrite F. exists ForbiddenError. reflexivity.
    + unfold retR at 1.
      destruct (if UserRoleChecker.isEmployee currentUser then _ else _)
        as [e|[]]; [exists e; reflexivity|].
      rewrite F. exists ForbiddenError. reflexivity.
  - intros existing -> -> D Hso Hsc.
    rewrite findById_run, D.
    destruct (BookingService._validateFindById currentUser existing w)
      as [e|[]] eqn:V;
      [apply validateFindById_error in V; subst e; reflexivity|].
    assert (G : forall d,
               BookingService._validateChildAndOwnerMatch d w
               = inl ForbiddenError ->
               match
                 (if UserRoleChecker.isEmployee currentUser
                  then BookingService._validateUpdateForEmployee id d existing
                  else retR tt) w
               with
               | inl e => inl e
               | inr _ =>
                   match BookingService._validateChildAndOwnerMatch d w with
                   | inl e => inl e
                   | inr _ => retR d w
                   end
               end = @inl Error BookingInput.t ForbiddenError).
    { intros d Fd. rewrite Fd.
      destruct (UserRoleChecker.isEmployee currentUser); [|reflexivity].
      destruct (BookingService._validateUpdateForEmployee id d existing w)
        as [e|[]] eqn:Ve; [|reflexivity].
      apply validateUpdateForEmployee_error in Ve; try assumption.
      subst e. reflexivity. }
    destruct (UserRoleChecker.isChildOwner currentUser).
    + rewrite validateUpdateForChildOwner_run, validateIsSameOwner_run,
        findById_run, D, V.
      destruct (childOwnerMayUpdate _ _); [|reflexivity].
      apply G, F.
    + unfold retR at 1. apply G, F.
Qed.

(** C5, amended.  When the owner that the payload carries as the
    referential check runs (the owner sent, but for an update by a
    child-owner, which has overwritten it with the actor's id) is not the
    owner of the referenced child, create and update fail and leave the
    world untouched; the check itself fails Forbidden, and so does the
    operation once the period and availability checks that run before it
    have passed and, for update, the booking is there with its owner and
    child set. *)
Theorem owner_mismatch_blocks_write currentUser calculate autoId id
    data child ownerId w :
  ChildRepository.findById (BookingInput.child data) w = inr child ->
  Child.owner child = Some ownerId ->
  (ownerId <> BookingInput.owner data ->
   BookingService._validateChildAndOwnerMatch data w = inl ForbiddenError
   /\ (exists e,
         BookingService.create currentUser calculate autoId data w
         = (inl e, w))
   /\ (BookingService._validatePeriodFuture data w = inr tt ->
       BookingService._validatePeriodAvailable currentUser None data w
       = inr tt ->
       BookingService.create currentUser calculate autoId data w
       = (inl ForbiddenError, w)))
  /\ (ownerId <> BookingInput.owner (checkedPayload currentUser data) ->
      (exists e,
          BookingService.update currentUser calculate id data w
          = (inl e, w))
      /\ (forall existing,
             BookingService._validatePeriodFuture data w = inr tt ->
             BookingService._validatePeriodAvailable currentUser (Some id)
               data w = inr tt ->
             BookingRepository.findDocument id w = inr existing ->
             Booking.owner existing <> None ->
             Booking.child existing <> None ->
             BookingService.update currentUser calculate id data w
             = (inl ForbiddenError, w))).
Proof.
  intros Hc Ho. split.
  - intros Hn.
    destruct (validateCreate_mismatch currentUser data child ownerId w
                Hc Ho Hn) as [[e He] Hf].
    split; [exact (childAndOwnerMatch_forbidden _ _ _ _ Hc Ho Hn)|].
    rewrite create_run. split.
    + exists e. rewrite He. reflexivity.
    + intros Hp Ha. rewrite (Hf Hp Ha). reflexivity.
  - intros Hn.
    destruct (validateUpdate_mismatch currentUser id data child ownerId w
                Hc Ho Hn) as [[e He] Hf].
    rewrite update_run. split.
    + exists e. rewrite He. reflexivity.
    + intros existing Hp Ha D Hso Hsc.
      rewrite (Hf existing Hp Ha D Hso Hsc). reflexivity.
Qed.

(** On the hotel: erin books rex, who is alice's, for mallory. *)
Lemma owner_mismatch_blocks_write_witness :
  let data :=
    BookingInput.mk "mallory" "rex" 100 200 CANCELLED None None None in
  BookingService.create erin calendarDaysFee "b9" data hotel
  = (inl ForbiddenError, hotel)
  /\ BookingService.update erin calendarDaysFee "b1" data hotel
     = (inl ForbiddenError, hotel).
Proof.
  intros data.
  destruct (owner_mismatch_blocks_write erin calendarDaysFee "b9" "b1"
              data rex "alice" hotel eq_refl eq_refl) as [Hc Hu].
  split.
  - apply Hc; [discriminate|reflexivity|reflexivity].
  - apply (proj2 (Hu ltac:(discriminate)) b1);
      try reflexivity; discriminate.
Defined.

(** ** The booking-update email *)

Lemma mustSendBookingUpdateEmail_spec currentUser id data old w :
  BookingService.findById currentUser id w = inr old ->
  exists must,
    BookingService._mustSendBookingUpdateEmail currentUser id data w
    = inr must
    /\ (must = true <-> emailIsDue old data).
Proof.
  intros B.
  unfold BookingService._mustSendBookingUpdateEmail,
    BookingService._hasChangedEmployeeNotesOrPhotos, bindR, retR, emailIsDue.
  destruct (status_eqb (BookingInput.status data) PROGRESS) eqn:S; simpl.
  - assert (P : BookingInput.status data = PROGRESS)
      by (destruct (BookingInput.status data); try discriminate; reflexivity).
    rewrite B.
    destruct (truthyOpt (BookingInput.employeeNotes data)) eqn:T; simpl.
    + destruct (optStrNeq (Booking.employeeNotes old)
                  (BookingInput.employeeNotes data)) eqn:N.
      * exists true. split; [reflexivity|]. split; [|reflexivity].
        intros _. split; [exact P|]. left. split; [reflexivity|].
        apply optStrNeq_spec, N.
      * assert (Nn : ~ Booking.employeeNotes old
                       <> BookingInput.employeeNotes data).
        { intros H. apply optStrNeq_spec in H. congruence. }
        pose proof (newPhoto_spec (payloadPhotos data) (Booking.photos old))
          as Q. unfold payloadPhotos in *.
        destruct (BookingInput.photos data) as [[|p l]|]; eexists;
          (split; [reflexivity|]); rewrite Q;
          (split; [intros H; split; [exact P|right; exact H]
                  |intros [_ [[_ H]|H]]; [contradiction|exact H]]).
    + pose proof (newPhoto_spec (payloadPhotos data) (Booking.photos old))
        as Q. unfold payloadPhotos in *.
      destruct (BookingInput.photos data) as [[|p l]|]; eexists;
        (split; [reflexivity|]); rewrite Q;
        (split; [intros H; split; [exact P|right; exact H]
                |intros [_ [[H _]|H]]; [congruence|exact H]]).
  - exists false. split; [reflexivity|]. split; [discriminate|].
    intros [P _]. rewrite P in S. discriminate S.
Qed.

(** The decision reads the status, the notes and the photos of the
    payload, none of which the checks or the fee change. *)
Lemma mustSendBookingUpdateEmail_payload currentUser calculate id data data' w :
  BookingService._validateUpdate currentUser id data w = inr data' ->
  BookingService._mustSendBookingUpdateEmail currentUser id
    (priced calculate data' w) w
  = BookingService._mustSendBookingUpdateEmail currentUser id data w.
Proof.
  intros V. apply validateUpdate_payload in V. subst data'.
  destruct (UserRoleChecker.isChildOwner currentUser); reflexivity.
Qed.

(** On the busy hotel: erin, an employee, updates the stay in progress
    with a payload that clears the notes; the notes change, the requested
    status is PROGRESS, and no email is due. *)
Example cleared_notes_send_no_email :
  let data :=
    BookingInput.mk "alice" "rex" 100 200 PROGRESS None (Some "") None in
  BookingService.findById erin "b2" busyHotel = inr b2
  /\ BookingInput.status data = PROGRESS
  /\ Booking.employeeNotes b2 <> BookingInput.employeeNotes data
  /\ BookingService._mustSendBookingUpdateEmail erin "b2" data busyHotel
     = inr false.
Proof.
  repeat split. discriminate.
Qed.

(** X19. The email of update is decided from the record as it stands
    and the payload: it is due exactly when the requested status is
    PROGRESS and either the payload's notes are non-empty and differ from
    the record's, or the payload has a photo whose id no photo of the
    record has. *)
Theorem email_is_due_iff currentUser id data old w :
  BookingService.findById currentUser id w = inr old ->
  exists must,
    BookingService._mustSendBookingUpdateEmail currentUser id data w
    = inr must
    /\ (must = true <-> emailIsDue old data).
Proof. exact (mustSendBookingUpdateEmail_spec currentUser id data old w). Qed.

(** On the busy hotel the email is due for new notes. *)
Lemma email_is_due_iff_witness :
  let walked :=
    BookingInput.mk "alice" "rex" 100 200 PROGRESS None (Some "walked") None in
  BookingService._mustSendBookingUpdateEmail erin "b2" walked busyHotel
  = inr true
  /\ emailIsDue b2 walked.
Proof.
  intros walked.
  destruct (email_is_due_iff erin "b2" walked b2 busyHotel eq_refl)
    as (must & E & Hd).
  assert (M : must = true).
  { assert (X : BookingService._mustSendBookingUpdateEmail erin "b2" walked
                  busyHotel = inr true) by reflexivity.
    rewrite E in X. injection X as ->. reflexivity. }
  subst must. split; [exact E|]. apply Hd. reflexivity.
Defined.

(** No update sends an email: one that fails leaves the world as it was,
    and one that goes through has a requested status that is neither
    BOOKED nor PROGRESS, for which no email is due, and adds its commit
    to the log and nothing else. *)
Lemma update_never_sends_email currentUser calculate id data w r w' :
  BookingService.update currentUser calculate id data w = (r, w') ->
  w' = w \/ exists batch, log w' = log w ++ [Committed batch].
Proof.
  rewrite update_run.
  destruct (BookingService._validateUpdate currentUser id data w)
    as [e|data1] eqn:V; [intros H; injection H as _ <-; left; reflexivity|].
  cbv zeta.
  rewrite (mustSendBookingUpdateEmail_payload _ calculate _ _ _ _ V).
  assert (Hs : includes [PROGRESS; BOOKED] (BookingInput.status data)
               = false).
  { destruct (includes [PROGRESS; BOOKED] (BookingInput.status data)) eqn:Hs;
      [|reflexivity].
    exfalso. revert V. unfold BookingService._validateUpdate, bindR.
    destruct (BookingService._validatePeriodFuture data w);
      [discriminate|].
    rewrite validatePeriodAvailable_throws by exact Hs. discriminate. }
  assert (M : BookingService._mustSendBookingUpdateEmail currentUser id data w
              = inr false).
  { unfold BookingService._mustSendBookingUpdateEmail.
    destruct (BookingInput.status data); try reflexivity.
    discriminate Hs. }
  rewrite M.
  destruct (BookingRepository.update id _ [] _ w) as [e|[record batch]];
    intros H; injection H as _ <-; [left; reflexivity|].
  right. exists batch. reflexivity.
Qed.

(** C7, on the busy hotel: erin, an employee, saves the stay in progress
    with new notes.  The requested status is PROGRESS, the notes are
    non-empty and differ from the record's, so the email is due, by the
    claim and by the decision of the code alike; the update is rejected
    with the TypeError of the counter that the repository does not have,
    and nothing is written or sent. *)
Example due_email_is_never_sent :
  let walked :=
    BookingInput.mk "alice" "rex" 100 200 PROGRESS None (Some "walked") None in
  BookingService.findById erin "b2" busyHotel = inr b2
  /\ BookingInput.status walked = PROGRESS
  /\ Booking.employeeNotes b2 <> BookingInput.employeeNotes walked
  /\ BookingService._mustSendBookingUpdateEmail erin "b2" walked busyHotel
     = inr true
  /\ BookingService.update erin calendarDaysFee "b2" walked busyHotel
     = (inl (TypeError
               "this.repository.countActiveBookingInPeriod is not a function"),
        busyHotel)
  /\ log busyHotel = [].
Proof. repeat split. discriminate. Qed.

(** ** Destroying bookings *)

(** C8, on the hotel: mallory is a child-owner and b1 is alice's, so the
    ownership check of the service refuses her the booking; yet
    [destroyAll], which validates no id, deletes it and commits. *)
Example destroyAll_skips_validation :
  UserRoleChecker.isChildOwner mallory = true
  /\ BookingService.findById mallory "b1" hotel = inl ForbiddenError
  /\ BookingService.destroyAll mallory ["b1"] hotel
     = (inr tt,
        mkWorld
          (mkDatabase [] [Child.mk "rex" (Some "alice") []] (mkSettings 2 10))
          50
          [Committed [DeleteBooking "b1"; RemoveChildBooking "b1"]]).
Proof. repeat split. Qed.

(** ** Destroying children *)

Lemma existsForChild_spec childId w :
  exists answer,
    BookingRepository.existsForChild childId w = inr answer
    /\ (answer = true <-> referenced childId w).
Proof.
  unfold BookingRepository.existsForChild, referenced.
  set (f := fun b : Booking.t =>
              match Booking.child b with
              | Some c => (c =? childId)%string
              | None => false
              end).
  assert (Hf : forall b, f b = true <-> Booking.child b = Some childId).
  { intros b. unfold f. destruct (Booking.child b) as [c|].
    - rewrite String.eqb_eq. split; congruence.
    - split; discriminate. }
  eexists. split; [reflexivity|].
  destruct (filter f (bookingCollection (db w))) as [|x l] eqn:F.
  - simpl. split; [discriminate|].
    intros (b & Hin & Hb). exfalso.
    assert (X : In b (filter f (bookingCollection (db w))))
      by (apply filter_In; split; [exact Hin|apply Hf, Hb]).
    rewrite F in X. exact X.
  - simpl. split; [|reflexivity]. intros _.
    assert (X : In x (filter f (bookingCollection (db w))))
      by (rewrite F; left; reflexivity).
    apply filter_In in X. destruct X as [Hin Hx].
    exists x. split; [exact Hin|apply Hf, Hx].
Qed.

Lemma validateDestroy_run currentUser id w :
  ChildService._validateDestroy currentUser id w
  = match ownershipCheck currentUser id w with
    | inl e => inl e
    | inr _ =>
        match BookingRepository.existsForChild id w with
        | inl e => inl e
        | inr true =>
            inl (ValidationError "entities.child.validation.bookingExists")
        | inr false => inr tt
        end
    end.
Proof.
  unfold ChildService._validateDestroy, ownershipCheck, bindR.
  destruct (UserRoleChecker.isChildOwner currentUser);
    [destruct (ChildService._validateIsSameOwner currentUser id w)|];
    try reflexivity;
    destruct (BookingRepository.existsForChild id w) as [e|[]]; reflexivity.
Qed.

(** A child that a booking references stops the loop of [destroyAll]. *)
Lemma destroyEach_guarded currentUser id e w :
  ChildService._validateDestroy currentUser id w = inl e ->
  forall ids batch,
    In id ids ->
    exists e',
      ChildService.destroyEach currentUser ids batch w = (inl e', w).
Proof.
  intros V ids. induction ids as [|x ids IH]; intros batch Hin.
  - destruct Hin.
  - simpl. unfold bindM, liftR.
    destruct (ChildService._validateDestroy currentUser x w) as [e0|[]] eqn:Vx.
    + exists e0. reflexivity.
    + destruct Hin as [->|Hin]; [congruence|]. apply IH, Hin.
Qed.

(** C9, as stated, fails on the hotel: mallory, a child-owner, destroys
    rex, who is alice's.  With a booking that references rex the guard
    fails Forbidden, not with ValidationError bookingExists; with no
    booking at all the guard still does not pass. *)
Example foreign_child_destroy_is_forbidden :
  referenced "rex" hotel
  /\ ChildService._validateDestroy mallory "rex" hotel = inl ForbiddenError
  /\ ChildService._validateDestroy mallory "rex"
       (mkWorld (mkDatabase [] [rex] (mkSettings 2 10)) 50 [])
     = inl ForbiddenError.
Proof.
  split; [|split; reflexivity].
  exists b1. split; [left; reflexivity|reflexivity].
Qed.

(** C9, amended.  Destroying a child that a booking references fails and
    leaves the world, the child record with it, as it was, whatever other
    ids are destroyed along; the guard fails with ValidationError
    bookingExists when the ownership check that runs first passes (the
    actor is no child-owner, or the child is there and theirs), and with
    the error of that check otherwise.  When no booking references the
    child and the ownership check passes, the guard passes. *)
Theorem child_destroy_guard currentUser id w :
  (referenced id w ->
   (forall ids,
       In id ids ->
       exists e, ChildService.destroyAll currentUser ids w = (inl e, w))
   /\ (ownershipCheck currentUser id w = inr tt ->
       ChildService._validateDestroy currentUser id w
       = inl (ValidationError "entities.child.validation.bookingExists")
       /\ ChildService.destroyAll currentUser [id] w
          = (inl (ValidationError "entities.child.validation.bookingExists"),
             w)))
  /\ (forall e,
         ownershipCheck currentUser id w = inl e ->
         ChildService._validateDestroy currentUser id w = inl e)
  /\ (~ referenced id w ->
      ownershipCheck currentUser id w = inr tt ->
      ChildService._validateDestroy currentUser id w = inr tt).
Proof.
  destruct (existsForChild_spec id w) as (answer & E & Ha).
  split; [|split].
  - intros Href.
    assert (A : answer = true) by (apply Ha, Href). subst answer.
    split.
    + intros ids Hin.
      assert (V : exists e,
                 ChildService._validateDestroy currentUser id w = inl e).
      { rewrite validateDestroy_run, E.
        destruct (ownershipCheck currentUser id w) as [e|u];
          eexists; reflexivity. }
      destruct V as [e V].
      destruct (destroyEach_guarded currentUser id e w V ids [] Hin)
        as [e' D].
      exists e'. unfold ChildService.destroyAll, bindM,
        AbstractRepository.createBatch, retM.
      rewrite D. reflexivity.
    + intros O.
      assert (V : ChildService._validateDestroy currentUser id w
                  = inl (ValidationError
                           "entities.child.validation.bookingExists"))
        by (rewrite validateDestroy_run, O, E; reflexivity).
      split; [exact V|].
      unfold ChildService.destroyAll, bindM, AbstractRepository.createBatch,
        retM. simpl. unfold bindM, liftR. rewrite V. reflexivity.
  - intros e O. rewrite validateDestroy_run, O. reflexivity.
  - intros Href O. rewrite validateDestroy_run, O, E.
    destruct answer; [|reflexivity].
    contradiction Href. apply Ha. reflexivity.
Qed.

(** On the hotel: alice may not destroy rex while b1 references him,
    mallory may not at all, and alice may once no booking is left. *)
Lemma child_destroy_guard_witness :
  ChildService.destroyAll alice ["rex"] hotel
  = (inl (ValidationError "entities.child.validation.bookingExists"), hotel)
  /\ ChildService._validateDestroy mallory "rex" hotel = inl ForbiddenError
  /\ ChildService._validateDestroy alice "rex"
       (mkWorld (mkDatabase [] [rex] (mkSettings 2 10)) 50 [])
     = inr tt.
Proof.
  split; [|split].
  - apply (proj1 (child_destroy_guard alice "rex" hotel)).
    + exists b1. split; [left; reflexivity|reflexivity].
    + reflexivity.
  - apply (proj1 (proj2 (child_destroy_guard mallory "rex" hotel))).
    reflexivity.
  - apply (proj2 (proj2 (child_destroy_guard alice "rex"
                           (mkWorld (mkDatabase [] [rex] (mkSettings 2 10))
                              50 [])))).
    + intros (b & Hin & _). destruct Hin.
    + reflexivity.
Defined.

(** ** Listing bookings *)








(** * Further properties *)

(** ** Reading one record *)

(** X2. [existsForChild] answers true exactly when some booking of the
    collection has the child for [child]; it never fails. *)
Theorem existsForChild_iff_referenced childId w :
  exists answer,
    BookingRepository.existsForChild childId w = inr answer
    /\ (answer = true <-> referenced childId w).
Proof. exact (existsForChild_spec childId w). Qed.

Lemma validateFindById_ok currentUser record w :
  BookingService._validateFindById currentUser record w = inr tt
  <-> visibleTo currentUser (Booking.owner record).
Proof.
  unfold BookingService._validateFindById, visibleTo, throwR, retR.
  destruct (UserRoleChecker.isChildOwner currentUser).
  - destruct (Booking.owner record) as [o|].
    + destruct (String.eqb_spec o (user_id currentUser)); simpl.
      * subst o. split; [intros _; right; right; reflexivity|reflexivity].
      * split; [discriminate|].
        intros [H|[H|H]]; try discriminate. congruence.
    + split; [intros _; right; left; reflexivity|reflexivity].
  - split; [intros _; left; reflexivity|reflexivity].
Qed.

(** X3. [findById] of the booking service answers a booking exactly when
    the repository finds it and the actor may read it: a child-owner
    reads only bookings that are theirs or have no owner, and gets
    Forbidden for any other; every other actor reads them all.  What the
    repository does not find, nobody reads. *)
Theorem booking_findById_visibility currentUser id w :
  (forall record,
      BookingService.findById currentUser id w = inr record
      <-> BookingRepository.findDocument id w = inr record
          /\ visibleTo currentUser (Booking.owner record))
  /\ (forall record,
         BookingRepository.findDocument id w = inr record ->
         ~ visibleTo currentUser (Booking.owner record) ->
         BookingService.findById currentUser id w = inl ForbiddenError)
  /\ (forall e,
         BookingRepository.findDocument id w = inl e ->
         BookingService.findById currentUser id w = inl e).
Proof.
  rewrite findById_run. split; [|split].
  - intros record.
    destruct (BookingRepository.findDocument id w) as [e|r].
    + split; [discriminate|intros [H _]; discriminate].
    + destruct (BookingService._validateFindById currentUser r w)
        as [e|[]] eqn:V.
      * split; [discriminate|]. intros [H Hv]. injection H as ->.
        apply (proj2 (validateFindById_ok currentUser record w)) in Hv.
        congruence.
      * apply validateFindById_ok in V.
        split; intros H; [injection H as <-; split; [reflexivity|exact V]
                         |destruct H as [H _]; exact H].
  - intros record D Hv. rewrite D.
    destruct (BookingService._validateFindById currentUser record w)
      as [e|[]] eqn:V.
    + apply validateFindById_error in V. subst e. reflexivity.
    + apply validateFindById_ok in V. contradiction.
  - intros e D. rewrite D. reflexivity.
Qed.

(** On the hotel: alice reads her booking, mallory does not, and nobody
    reads a booking that is not there. *)
Lemma booking_findById_visibility_witness :
  BookingService.findById alice "b1" hotel = inr b1
  /\ BookingService.findById mallory "b1" hotel = inl ForbiddenError
  /\ BookingService.findById erin "b7" hotel = inl NotFoundError.
Proof.
  split; [|split].
  - apply (proj1 (booking_findById_visibility alice "b1" hotel)).
    split; [reflexivity|right; right; reflexivity].
  - apply (proj1 (proj2 (booking_findById_visibility mallory "b1" hotel))
             b1 eq_refl).
    intros [H|[H|H]]; discriminate H.
  - apply (proj2 (proj2 (booking_findById_visibility erin "b7" hotel))).
    reflexivity.
Defined.

Lemma child_validateFindById_ok currentUser record w :
  ChildService._validateFindById currentUser record w = inr tt
  <-> visibleTo currentUser (Child.owner record).
Proof.
  unfold ChildService._validateFindById, visibleTo, throwR, retR.
  destruct (UserRoleChecker.isChildOwner currentUser).
  - destruct (Child.owner record) as [o|].
    + destruct (String.eqb_spec o (user_id currentUser)); simpl.
      * subst o. split; [intros _; right; right; reflexivity|reflexivity].
      * split; [discriminate|].
        intros [H|[H|H]]; try discriminate. congruence.
    + split; [intros _; right; left; reflexivity|reflexivity].
  - split; [intros _; left; reflexivity|reflexivity].
Qed.

Lemma child_validateFindById_error currentUser record w e :
  ChildService._validateFindById currentUser record w = inl e ->
  e = ForbiddenError.
Proof.
  unfold ChildService._validateFindById, throwR, retR.
  destruct (UserRoleChecker.isChildOwner currentUser); [|discriminate].
  destruct (Child.owner record); [|discriminate].
  destruct (negb _); [|discriminate].
  intros H; injection H as <-. reflexivity.
Qed.

Lemma child_findById_run currentUser id w :
  ChildService.findById currentUser id w
  = match ChildRepository.findById id w with
    | inl e => inl e
    | inr record =>
        match ChildService._validateFindById currentUser record w with
        | inl e => inl e
        | inr _ => inr record
        end
    end.
Proof.
  unfold ChildService.findById, bindR, retR.
  destruct (ChildRepository.findById id w); reflexivity.
Qed.

(** X4. [findById] of the child service answers a child exactly when the
    repository finds it and the actor may read it: a child-owner reads
    only children that are theirs or have no owner, and gets Forbidden
    for any other; every other actor reads them all. *)
Theorem child_findById_visibility currentUser id w :
  (forall record,
      ChildService.findById currentUser id w = inr record
      <-> ChildRepository.findById id w = inr record
          /\ visibleTo currentUser (Child.owner record))
  /\ (forall record,
         ChildRepository.findById id w = inr record ->
         ~ visibleTo currentUser (Child.owner record) ->
         ChildService.findById currentUser id w = inl ForbiddenError)
  /\ (forall e,
         ChildRepository.findById id w = inl e ->
         ChildService.findById currentUser id w = inl e).
Proof.
  rewrite child_findById_run. split; [|split].
  - intros record.
    destruct (ChildRepository.findById id w) as [e|r].
    + split; [discriminate|intros [H _]; discriminate].
    + destruct (ChildService._validateFindById currentUser r w)
        as [e|[]] eqn:V.
      * split; [discriminate|]. intros [H Hv]. injection H as ->.
        apply (proj2 (child_validateFindById_ok currentUser record w)) in Hv.
        congruence.
      * apply child_validateFindById_ok in V.
        split; intros H; [injection H as <-; split; [reflexivity|exact V]
                         |destruct H as [H _]; exact H].
  - intros record D Hv. rewrite D.
    destruct (ChildService._validateFindById currentUser record w)
      as [e|[]] eqn:V.
    + apply child_validateFindById_error in V. subst e. reflexivity.
    + apply child_validateFindById_ok in V. contradiction.
  - intros e D. rewrite D. reflexivity.
Qed.

(** On the hotel: alice reads rex, mallory does not. *)
Lemma child_findById_visibility_witness :
  ChildService.findById alice "rex" hotel = inr rex
  /\ ChildService.findById mallory "rex" hotel = inl ForbiddenError.
Proof.
  split.
  - apply (proj1 (child_findById_visibility alice "rex" hotel)).
    split; [reflexivity|right; right; reflexivity].
  - apply (proj1 (proj2 (child_findById_visibility mallory "rex" hotel))
             rex eq_refl).
    intros [H|[H|H]]; discriminate H.
Defined.

(** ** Who may update a booking *)

(** X5. A child-owner never updates a booking of another owner: the
    update fails and leaves the world untouched, with Forbidden once the
    period and availability checks that run first have passed. *)
Theorem child_owner_cannot_update_foreign_booking
    currentUser calculate id data existing owner w :
  UserRoleChecker.isChildOwner currentUser = true ->
  BookingRepository.findDocument id w = inr existing ->
  Booking.owner existing = Some owner ->
  owner <> user_id currentUser ->
  (exists e,
      BookingService.update currentUser calculate id data w = (inl e, w))
  /\ (BookingService._validatePeriodFuture data w = inr tt ->
      BookingService._validatePeriodAvailable currentUser (Some id) data w
      = inr tt ->
      BookingService.update currentUser calculate id data w
      = (inl ForbiddenError, w)).
Proof.
  intros Hco D Ho Hn.
  assert (F : BookingService.findById currentUser id w = inl ForbiddenError).
  { rewrite findById_run, D.
    unfold BookingService._validateFindById, throwR.
    rewrite Hco, Ho.
    destruct (String.eqb_spec owner (user_id currentUser));
      [contradiction|reflexivity]. }
  rewrite update_run. unfold BookingService._validateUpdate, bindR.
  rewrite F. split.
  - destruct (BookingService._validatePeriodFuture data w) as [e|[]];
      [exists e; reflexivity|].
    destruct (BookingService._validatePeriodAvailable currentUser (Some id)
                data w) as [e|[]];
      [exists e; reflexivity|exists ForbiddenError; reflexivity].
  - intros -> ->. reflexivity.
Qed.

(** On the hotel: mallory tries to cancel alice's booking. *)
Lemma child_owner_cannot_update_foreign_booking_witness :
  BookingService.update mallory calendarDaysFee "b1"
    (BookingInput.mk "mallory" "rex" 100 200 CANCELLED None None None) hotel
  = (inl ForbiddenError, hotel).
Proof.
  apply (proj2 (child_owner_cannot_update_foreign_booking mallory
                  calendarDaysFee "b1"
                  (BookingInput.mk "mallory" "rex" 100 200 CANCELLED None
                     None None)
                  b1 "alice" hotel eq_refl eq_refl eq_refl
                  ltac:(discriminate)));
    reflexivity.
Defined.

Lemma validateUpdate_set_owner currentUser id data owner w :
  UserRoleChecker.isChildOwner currentUser = true ->
  BookingService._validateUpdate currentUser id
    (BookingInput.set_owner owner data) w
  = BookingService._validateUpdate currentUser id data w.
Proof.
  intros Hco. unfold BookingService._validateUpdate, bindR.
  change (BookingService._validatePeriodFuture
            (BookingInput.set_owner owner data) w)
    with (BookingService._validatePeriodFuture data w).
  destruct (BookingService._validatePeriodFuture data w); [reflexivity|].
  change (BookingService._validatePeriodAvailable currentUser (Some id)
            (BookingInput.set_owner owner data) w)
    with (BookingService._validatePeriodAvailable currentUser (Some id)
            data w).
  destruct (BookingService._validatePeriodAvailable currentUser (Some id)
              data w); [reflexivity|].
  destruct (BookingService.findById currentUser id w) as [e|existing];
    [reflexivity|].
  rewrite Hco, !validateUpdateForChildOwner_run.
  reflexivity.
Qed.

(** X6. An update by a child-owner does not depend on the owner its
    payload carries: whatever it is, the update answers the same and
    leaves the same world, the owner having been overwritten with the
    actor's id before anything reads it. *)
Theorem child_owner_update_ignores_owner
    currentUser calculate id data owner w :
  UserRoleChecker.isChildOwner currentUser = true ->
  BookingService.update currentUser calculate id
    (BookingInput.set_owner owner data) w
  = BookingService.update currentUser calculate id data w.
Proof.
  intros Hco.
  rewrite !update_run, (validateUpdate_set_owner _ _ _ _ _ Hco).
  reflexivity.
Qed.

(** On the hotel: alice cancels her booking, naming mallory or herself
    for owner. *)
Lemma child_owner_update_ignores_owner_witness :
  let data := BookingInput.mk "alice" "rex" 100 200 CANCELLED None None None in
  BookingService.update alice calendarDaysFee "b1"
    (BookingInput.set_owner "mallory" data) hotel
  = BookingService.update alice calendarDaysFee "b1" data hotel.
Proof.
  intros data.
  apply (child_owner_update_ignores_owner alice calendarDaysFee "b1" data
           "mallory" hotel eq_refl).
Defined.

(** X7. The state machine binds child-owners and employees only.  For an
    actor who is neither, an update whose period and availability checks
    pass and whose owner is the owner of the child goes through on any
    booking that is there, whatever its status, COMPLETED and CANCELLED
    included. *)
Theorem update_unbound_for_other_roles
    currentUser calculate id data existing w :
  UserRoleChecker.isChildOwner currentUser = false ->
  UserRoleChecker.isEmployee currentUser = false ->
  BookingRepository.findDocument id w = inr existing ->
  BookingService._validatePeriodFuture data w = inr tt ->
  BookingService._validatePeriodAvailable currentUser (Some id) data w
  = inr tt ->
  BookingService._validateChildAndOwnerMatch data w = inr tt ->
  BookingService._validateUpdate currentUser id data w = inr data
  /\ exists record w',
      BookingService.update currentUser calculate id data w
      = (inr record, w')
      /\ Booking.id record = id
      /\ Booking.status record = BookingInput.status data.
Proof.
  intros Hco Hem D Hp Ha Hm.
  assert (B : BookingService.findById currentUser id w = inr existing).
  { rewrite findById_run, D.
    unfold BookingService._validateFindById. rewrite Hco. reflexivity. }
  assert (V : BookingService._validateUpdate currentUser id data w
              = inr data).
  { unfold BookingService._validateUpdate, bindR, retR.
    rewrite Hp, Ha, B, Hco, Hem, Hm. reflexivity. }
  split; [exact V|].
  rewrite update_run, V. cbv zeta.
  rewrite (mustSendBookingUpdateEmail_payload _ calculate _ _ _ _ V).
  destruct (mustSendBookingUpdateEmail_spec currentUser id data existing w B)
    as (must & -> & _).
  unfold BookingRepository.update, bindR, retR. rewrite D.
  eexists. eexists. split; [reflexivity|]. split; reflexivity.
Qed.

(** On the quiet hotel: morgan, a manager, moves the cancelled stay to
    COMPLETED. *)
Lemma update_unbound_for_other_roles_witness :
  let data :=
    BookingInput.mk "alice" "rex" 100 200 COMPLETED None None None in
  Booking.status b3 = CANCELLED
  /\ exists record w',
      BookingService.update morgan calendarDaysFee "b3" data quietHotel
      = (inr record, w')
      /\ Booking.id record = "b3"
      /\ Booking.status record = COMPLETED.
Proof.
  intros data. split; [reflexivity|].
  apply (proj2 (update_unbound_for_other_roles morgan calendarDaysFee "b3"
                  data b3 quietHotel eq_refl eq_refl eq_refl eq_refl
                  eq_refl eq_refl)).
Defined.

(** ** What never gets in *)

Lemma validatePeriodFuture_error data w e :
  BookingService._validatePeriodFuture data w = inl e ->
  e = ValidationError "entities.booking.validation.arrivalAfterDeparture"
  \/ e = ValidationError "entities.booking.validation.periodPast".
Proof.
  unfold BookingService._validatePeriodFuture, throwR, retR, bindR, moment.
  destruct (negb _); [discriminate|].
  destruct (isAfter _ _); [intros H; injection H as <-; left; reflexivity|].
  destruct (isAfter _ _); [intros H; injection H as <-; right; reflexivity|].
  discriminate.
Qed.

(** X8. No create and no update whose requested status is BOOKED or
    PROGRESS goes through.  Both fail with the same error and leave the
    world untouched: a ValidationError of the period check or, when that
    passes, the TypeError of the counter that the repository does not
    have. *)
Theorem active_status_is_never_admitted
    currentUser calculate autoId id data w :
  includes [PROGRESS; BOOKED] (BookingInput.status data) = true ->
  exists e,
    BookingService.create currentUser calculate autoId data w = (inl e, w)
    /\ BookingService.update currentUser calculate id data w = (inl e, w)
    /\ (e = ValidationError
              "entities.booking.validation.arrivalAfterDeparture"
        \/ e = ValidationError "entities.booking.validation.periodPast"
        \/ e = TypeError
                 "this.repository.countActiveBookingInPeriod is not a function").
Proof.
  intros Hs. rewrite create_run, update_run.
  unfold BookingService._validateCreate, BookingService._validateUpdate,
    bindR.
  destruct (BookingService._validatePeriodFuture data w) as [e|[]] eqn:P.
  - exists e. split; [reflexivity|]. split; [reflexivity|].
    destruct (validatePeriodFuture_error _ _ _ P) as [H|H];
      [left|right; left]; exact H.
  - rewrite !validatePeriodAvailable_throws by exact Hs.
    eexists. split; [reflexivity|]. split; [reflexivity|].
    right; right; reflexivity.
Qed.

(** On the hotel, which has room: erin books a future stay for rex. *)
Lemma active_status_is_never_admitted_witness :
  exists e,
    BookingService.create erin calendarDaysFee "b9"
      (BookingInput.mk "alice" "rex" 300 400 BOOKED None None None) hotel
    = (inl e, hotel).
Proof.
  destruct (active_status_is_never_admitted erin calendarDaysFee "b9" "b1"
              (BookingInput.mk "alice" "rex" 300 400 BOOKED None None None)
              hotel eq_refl) as (e & H & _).
  exists e. exact H.
Defined.

Lemma validatePeriodFuture_skipped data w :
  status_eqb (BookingInput.status data) BOOKED = false ->
  BookingService._validatePeriodFuture data w = inr tt.
Proof.
  intros Hb. unfold BookingService._validatePeriodFuture. cbv zeta.
  rewrite Hb. reflexivity.
Qed.

(** X9. create goes through exactly when the actor is no child-owner,
    the requested status is neither BOOKED nor PROGRESS, and the owner of
    the payload is the owner of the referenced child.  In particular a
    child-owner never creates a booking: a status other than BOOKED is
    Forbidden to them, and BOOKED is never admitted. *)
Theorem create_goes_through_iff currentUser calculate autoId data w :
  (exists record w',
      BookingService.create currentUser calculate autoId data w
      = (inr record, w'))
  <-> UserRoleChecker.isChildOwner currentUser = false
      /\ includes [PROGRESS; BOOKED] (BookingInput.status data) = false
      /\ BookingService._validateChildAndOwnerMatch data w = inr tt.
Proof.
  rewrite create_run. split.
  - intros (record & w' & H).
    destruct (includes [PROGRESS; BOOKED] (BookingInput.status data)) eqn:Hs.
    { exfalso. revert H.
      unfold BookingService._validateCreate, bindR.
      destruct (BookingService._validatePeriodFuture data w);
        [discriminate|].
      rewrite validatePeriodAvailable_throws by exact Hs. discriminate. }
    assert (Hb : status_eqb (BookingInput.status data) BOOKED = false)
      by (destruct (BookingInput.status data); try reflexivity;
          discriminate Hs).
    revert H. unfold BookingService._validateCreate, bindR.
    rewrite validatePeriodFuture_skipped by exact Hb.
    rewrite validatePeriodAvailable_skipped by exact Hs.
    rewrite Hb. simpl.
    destruct (UserRoleChecker.isChildOwner currentUser).
    + destruct (negb (BookingInput.owner data =? user_id currentUser)%string);
        discriminate.
    + unfold retR.
      destruct (BookingService._validateChildAndOwnerMatch data w) as [e|[]];
        [discriminate|].
      intros _. repeat split.
  - intros (Hco & Hs & Hm).
    assert (Hb : status_eqb (BookingInput.status data) BOOKED = false)
      by (destruct (BookingInput.status data); try reflexivity;
          discriminate Hs).
    unfold BookingService._validateCreate, bindR.
    rewrite validatePeriodFuture_skipped by exact Hb.
    rewrite validatePeriodAvailable_skipped by exact Hs.
    rewrite Hco, Hm. unfold retR.
    eexists. eexists. reflexivity.
Qed.

(** On the hotel: erin records a cancelled stay of rex for alice. *)
Lemma create_goes_through_iff_witness :
  exists record w',
    BookingService.create erin calendarDaysFee "b9"
      (BookingInput.mk "alice" "rex" 100 200 CANCELLED None None None) hotel
    = (inr record, w').
Proof.
  apply (proj2 (create_goes_through_iff erin calendarDaysFee "b9"
                  (BookingInput.mk "alice" "rex" 100 200 CANCELLED None None
                     None) hotel)).
  repeat split.
Defined.

(** X16. All that a child-owner can do to a booking through update is
    cancel it: whenever an update by a child-owner goes through, the
    requested status is CANCELLED, the booking was BOOKED, and it was
    theirs or had no owner. *)
Theorem child_owner_update_only_cancels
    currentUser calculate id data w record w' :
  UserRoleChecker.isChildOwner currentUser = true ->
  BookingService.update currentUser calculate id data w = (inr record, w') ->
  BookingInput.status data = CANCELLED
  /\ exists existing,
      BookingRepository.findDocument id w = inr existing
      /\ Booking.status existing = BOOKED
      /\ visibleTo currentUser (Booking.owner existing).
Proof.
  intros Hco. rewrite update_run.
  destruct (BookingService._validateUpdate currentUser id data w)
    as [e|data1] eqn:V; [discriminate|].
  intros _.
  destruct (validateUpdate_accepts _ _ _ _ _ V) as (existing & B & Hc & _).
  specialize (Hc Hco). unfold childOwnerMayUpdate in Hc.
  apply andb_true_iff in Hc. destruct Hc as [He Hr].
  assert (Hs : includes [PROGRESS; BOOKED] (BookingInput.status data)
               = false).
  { destruct (includes [PROGRESS; BOOKED] (BookingInput.status data)) eqn:Hs;
      [|reflexivity].
    exfalso. revert V. unfold BookingService._validateUpdate, bindR.
    destruct (BookingService._validatePeriodFuture data w);
      [discriminate|].
    rewrite validatePeriodAvailable_throws by exact Hs. discriminate. }
  split.
  - destruct (BookingInput.status data); try discriminate; reflexivity.
  - exists existing. rewrite findById_run in B.
    destruct (BookingRepository.findDocument id w) as [e|r];
      [discriminate|].
    destruct (BookingService._validateFindById currentUser r w) as [e|[]] eqn:F;
      [discriminate|].
    injection B as ->. split; [reflexivity|]. split.
    + destruct (Booking.status existing); try discriminate; reflexivity.
    + apply validateFindById_ok in F. exact F.
Qed.

(** On the hotel: alice cancels her booking. *)
Lemma child_owner_update_only_cancels_witness :
  exists existing,
    BookingRepository.findDocument "b1" hotel = inr existing
    /\ Booking.status existing = BOOKED
    /\ visibleTo alice (Booking.owner existing).
Proof.
  apply (child_owner_update_only_cancels alice calendarDaysFee "b1"
           (BookingInput.mk "alice" "rex" 100 200 CANCELLED None None None)
           hotel
           (Booking.mk "b1" (Some "alice") (Some "rex") 100 200 CANCELLED
              (Some 10) None [])
           (snd (BookingService.update alice calendarDaysFee "b1"
                   (BookingInput.mk "alice" "rex" 100 200 CANCELLED None
                      None None) hotel))
           eq_refl eq_refl).
Defined.

(** X17. Saving again what is stored sends no email: when the payload's
    notes are absent, empty or those of the record, and every photo of
    the payload has the id of a photo of the record, no email is due,
    whatever the requested status; dropping photos or reordering them
    does not count as a change. *)
Theorem unchanged_payload_sends_no_email currentUser id data old w :
  BookingService.findById currentUser id w = inr old ->
  truthyOpt (BookingInput.employeeNotes data) = false
  \/ BookingInput.employeeNotes data = Booking.employeeNotes old ->
  (forall photo,
      In photo (payloadPhotos data) ->
      exists oldPhoto,
        In oldPhoto (Booking.photos old)
        /\ photo_id oldPhoto = photo_id photo) ->
  BookingService._mustSendBookingUpdateEmail currentUser id data w
  = inr false.
Proof.
  intros B Hn Hp.
  destruct (mustSendBookingUpdateEmail_spec currentUser id data old w B)
    as (must & E & Hd).
  rewrite E. destruct must; [|reflexivity].
  exfalso. destruct (proj1 Hd eq_refl) as [_ [[Ht Hne]|(photo & Hin & Hnew)]].
  - destruct Hn as [Hn|Hn]; [congruence|]. apply Hne. symmetry. exact Hn.
  - destruct (Hp photo Hin) as (oldPhoto & Ho & Hid).
    exact (Hnew oldPhoto Ho Hid).
Qed.

(** On the busy hotel: erin saves the stay in progress with the notes it
    has. *)
Lemma unchanged_payload_sends_no_email_witness :
  BookingService._mustSendBookingUpdateEmail erin "b2"
    (BookingInput.mk "alice" "rex" 100 200 PROGRESS None (Some "ate well")
       None)
    busyHotel
  = inr false.
Proof.
  apply (unchanged_payload_sends_no_email erin "b2"
           (BookingInput.mk "alice" "rex" 100 200 PROGRESS None
              (Some "ate well") None)
           b2 busyHotel eq_refl (or_intror eq_refl)).
  intros photo [].
Defined.

(** ** What the writes leave behind *)

(** X10. create is all or nothing and sends no email: when it fails the
    world is untouched; when it goes through, the world differs by one
    committed batch, which sets the booking answered, under the id
    Firestore gave it, and links it to its child. *)
Theorem create_commits_once currentUser calculate autoId data w r w' :
  BookingService.create currentUser calculate autoId data w = (r, w') ->
  (exists e, r = inl e /\ w' = w)
  \/ (exists record,
         r = inr record
         /\ Booking.id record = autoId
         /\ w' = committed
                   [SetBooking record;
                    AddChildBooking (BookingInput.child data) autoId] w).
Proof.
  rewrite create_run.
  destruct (BookingService._validateCreate currentUser data w) as [e|[]].
  - intros H; injection H as <- <-. left. exists e. split; reflexivity.
  - cbn [BookingRepository.create fst snd app].
    intros H; injection H as <- <-. right.
    eexists. split; [reflexivity|]. split; reflexivity.
Qed.

(** On the hotel: erin records a cancelled stay. *)
Lemma create_commits_once_witness :
  let data :=
    BookingInput.mk "alice" "rex" 100 200 CANCELLED None None None in
  let record :=
    Booking.mk "b9" (Some "alice") (Some "rex") 100 200 CANCELLED (Some 10)
      None [] in
  log (snd (BookingService.create erin calendarDaysFee "b9" data hotel))
  = [Committed [SetBooking record; AddChildBooking "rex" "b9"]].
Proof.
  intros data record.
  destruct (create_commits_once erin calendarDaysFee "b9" data hotel
              (inr record)
              (snd (BookingService.create erin calendarDaysFee "b9" data
                      hotel))
              eq_refl) as [(e & H & _)|(r & H & _ & ->)].
  - discriminate H.
  - injection H as <-. reflexivity.
Defined.

(** ** Destroying children, all or nothing *)

Lemma child_destroyEach_passes currentUser w ids :
  (forall id, In id ids ->
              ChildService._validateDestroy currentUser id w = inr tt) ->
  forall batch,
    ChildService.destroyEach currentUser ids batch w
    = (inr (batch ++ map DeleteChild ids), w).
Proof.
  induction ids as [|id ids IH]; intros H batch; simpl.
  - rewrite app_nil_r. reflexivity.
  - unfold bindM, liftR. rewrite (H id (or_introl eq_refl)).
    rewrite IH by (intros x Hx; apply H; right; exact Hx).
    unfold ChildRepository.destroy. rewrite <- app_assoc. reflexivity.
Qed.

Lemma child_destroyEach_stops currentUser w before id e after :
  (forall x, In x before ->
             ChildService._validateDestroy currentUser x w = inr tt) ->
  ChildService._validateDestroy currentUser id w = inl e ->
  forall batch,
    ChildService.destroyEach currentUser (before ++ id :: after) batch w
    = (inl e, w).
Proof.
  intros Hb He. induction before as [|x before IH]; intros batch; simpl.
  - unfold bindM, liftR. rewrite He. reflexivity.
  - unfold bindM, liftR. rewrite (Hb x (or_introl eq_refl)).
    apply IH. intros y Hy. apply Hb. right. exact Hy.
Qed.

Lemma destroyed_children ids d :
  childCollection (fold_left AbstractRepository.applyOp (map DeleteChild ids) d)
  = filter (fun c => negb (listed ids (Child.id c))) (childCollection d).
Proof.
  revert d. induction ids as [|id ids IH]; intros d; simpl.
  - symmetry. induction (childCollection d) as [|c l IHl];
      simpl; [reflexivity|]. rewrite IHl. reflexivity.
  - rewrite IH. simpl. rewrite filter_twice.
    apply filter_ext_all. intros c. unfold listed. simpl.
    rewrite negb_orb. reflexivity.
Qed.

(** X12. [destroyAll] of the child service is all or nothing.  When the
    guard passes for every listed id, one batch is committed that deletes
    them all, and the collection then holds exactly the children whose id
    was not listed.  When the guard fails for some id and passes for the
    ids before it, the call fails with the error of that id and the world
    is untouched: the children listed before it are not deleted
    either. *)
Theorem child_destroyAll_all_or_nothing currentUser w :
  (forall ids,
      (forall id, In id ids ->
                  ChildService._validateDestroy currentUser id w = inr tt) ->
      ChildService.destroyAll currentUser ids w
      = (inr tt, committed (map DeleteChild ids) w)
      /\ childCollection (db (committed (map DeleteChild ids) w))
         = filter (fun c => negb (listed ids (Child.id c)))
             (childCollection (db w)))
  /\ (forall before id e after,
         (forall x, In x before ->
                    ChildService._validateDestroy currentUser x w = inr tt) ->
         ChildService._validateDestroy currentUser id w = inl e ->
         ChildService.destroyAll currentUser (before ++ id :: after) w
         = (inl e, w)).
Proof.
  split.
  - intros ids H. split; [|apply destroyed_children].
    unfold ChildService.destroyAll, bindM, AbstractRepository.createBatch,
      retM.
    rewrite (child_destroyEach_passes currentUser w ids H []).
    reflexivity.
  - intros before id e after Hb He.
    unfold ChildService.destroyAll, bindM, AbstractRepository.createBatch,
      retM.
    rewrite (child_destroyEach_stops currentUser w before id e after Hb He).
    reflexivity.
Qed.

(** On the nursery: alice destroys bo alone, then bo together with rex,
    whom a booking references. *)
Lemma child_destroyAll_all_or_nothing_witness :
  ChildService.destroyAll alice ["bo"] nursery
  = (inr tt, committed [DeleteChild "bo"] nursery)
  /\ ChildService.destroyAll alice ["bo"; "rex"] nursery
     = (inl (ValidationError "entities.child.validation.bookingExists"),
        nursery).
Proof.
  split.
  - apply (proj1 (child_destroyAll_all_or_nothing alice nursery) ["bo"]).
    intros id [<-|[]]. reflexivity.
  - apply (proj2 (child_destroyAll_all_or_nothing alice nursery)
             ["bo"] "rex"
             (ValidationError "entities.child.validation.bookingExists") []).
    + intros id [<-|[]]. reflexivity.
    + reflexivity.
Defined.

(** ** Autocomplete *)

(** X13. The autocomplete listing of bookings gives a child-owner their
    own bookings only.  It fails Forbidden unless the filter names the
    actor for owner; when it answers, every item is the id, for label
    too, of a row that the query gave and that the actor owns. *)
Theorem autocomplete_lists_own_bookings currentUser rows filter limit w :
  UserRoleChecker.isChildOwner currentUser = true ->
  (BookingService.findAllAutocomplete currentUser rows filter limit w
   = inl ForbiddenError
   /\ forall f,
       filter = Some f ->
       autocomplete_owner f <> Some (user_id currentUser)
       \/ user_id currentUser = "")
  \/ (exists f items,
         filter = Some f
         /\ autocomplete_owner f = Some (user_id currentUser)
         /\ BookingService.findAllAutocomplete currentUser rows filter limit w
            = inr items
         /\ forall item,
             In item items ->
             item_label item = item_id item
             /\ exists row,
                 In row
                   (rows
                      (BookingRepository.findAllAutocomplete_query filter
                         limit)
                      (bookingCollection (db w)))
                 /\ Booking.id row = item_id item
                 /\ Booking.owner row = Some (user_id currentUser)).
Proof.
  intros Hco.
  unfold BookingService.findAllAutocomplete, bindR. rewrite Hco.
  destruct (BookingService.notOwnFilter currentUser filter) eqn:N.
  - left. split; [reflexivity|]. intros f ->.
    unfold BookingService.notOwnFilter in N.
    destruct (autocomplete_owner f) as [o|]; [|left; discriminate].
    simpl in N. apply orb_true_iff in N. destruct N as [N|N].
    + unfold truthy in N. apply negb_true_iff, negb_false_iff in N.
      apply String.eqb_eq in N. subst o.
      destruct (String.eqb_spec (user_id currentUser) "") as [E|E];
        [right; exact E|left; congruence].
    + left. apply negb_true_iff in N.
      intros E. injection E as ->. rewrite String.eqb_refl in N.
      discriminate N.
  - right. unfold BookingService.notOwnFilter in N.
    destruct filter as [f|]; [|discriminate].
    apply orb_false_iff in N. destruct N as [Nt Ne].
    apply negb_false_iff in Nt.
    destruct (autocomplete_owner f) as [o|] eqn:O; [|discriminate].
    simpl in Nt, Ne. apply negb_false_iff, String.eqb_eq in Ne. subst o.
    exists f. eexists. split; [reflexivity|]. split; [exact O|].
    split.
    + unfold throwR, retR, BookingRepository.findAllAutocomplete.
      rewrite O, Nt. reflexivity.
    + intros item Hin. apply in_map_iff in Hin.
      destruct Hin as (row & <- & Hrow). split; [reflexivity|].
      apply filter_In in Hrow. destruct Hrow as [Hrow Ho].
      exists row. split; [exact Hrow|]. split; [reflexivity|].
      unfold BookingRepository.ownerIs in Ho.
      destruct (Booking.owner row) as [x|]; [|discriminate].
      apply String.eqb_eq in Ho. subst x. reflexivity.
Qed.

(** On the crowd of two owners: alice lists with her own id for owner,
    and with none. *)
Lemma autocomplete_lists_own_bookings_witness :
  let crowd :=
    mkWorld
      (mkDatabase
         [b1;
          Booking.mk "b5" (Some "mallory") (Some "tom") 100 200 BOOKED None
            None []]
         [rex] (mkSettings 2 10))
      50 [] in
  BookingService.findAllAutocomplete alice (fun _ all => all)
    (Some (mkAutocompleteFilter None (Some "alice"))) None crowd
  = inr [mkItem "b1" "b1"]
  /\ BookingService.findAllAutocomplete alice (fun _ all => all) None None
       crowd
     = inl ForbiddenError.
Proof.
  intros crowd. split.
  - destruct (autocomplete_lists_own_bookings alice (fun _ all => all)
                (Some (mkAutocompleteFilter None (Some "alice"))) None crowd
                eq_refl) as [[H _]|(f & items & _ & _ & H & _)].
    + discriminate H.
    + reflexivity.
  - destruct (autocomplete_lists_own_bookings alice (fun _ all => all)
                None None crowd eq_refl)
      as [[H _]|(f & items & H & _)].
    + exact H.
    + discriminate H.
Defined.

(** ** Writing and listing children *)

Lemma child_validateUpdate_run currentUser id data w :
  ChildService._validateUpdate currentUser id data w
  = if UserRoleChecker.isChildOwner currentUser then
      match ChildService.findById currentUser id w with
      | inl e => inl e
      | inr _ => inr (ChildInput.set_owner (user_id currentUser) data)
      end
    else inr data.
Proof.
  unfold ChildService._validateUpdate, ChildService._validateIsSameOwner,
    bindR, retR.
  destruct (UserRoleChecker.isChildOwner currentUser); [|reflexivity].
  destruct (ChildService.findById currentUser id w); reflexivity.
Qed.

(** X14. A child-owner writes their own children only, whatever the
    repository does with a write.  create fails Forbidden, the world
    untouched, when the payload names another owner.  update fails, the
    world untouched, with Forbidden on a child of another owner and with
    the repository's error on a child that is not there; on a child the
    actor may read, the repository is handed the payload with the actor
    for owner, so that the owner the caller sent does not matter. *)
Theorem child_owner_writes_own_children
    currentUser repositoryCreate repositoryUpdate id data w :
  UserRoleChecker.isChildOwner currentUser = true ->
  (ChildInput.owner data <> user_id currentUser ->
   ChildService.create currentUser repositoryCreate data w
   = (inl ForbiddenError, w))
  /\ (forall child,
         ChildRepository.findById id w = inr child ->
         ~ visibleTo currentUser (Child.owner child) ->
         ChildService.update currentUser repositoryUpdate id data w
         = (inl ForbiddenError, w))
  /\ (forall e,
         ChildRepository.findById id w = inl e ->
         ChildService.update currentUser repositoryUpdate id data w
         = (inl e, w))
  /\ (forall child,
         ChildRepository.findById id w = inr child ->
         visibleTo currentUser (Child.owner child) ->
         ChildService.update currentUser repositoryUpdate id data w
         = let written :=
             repositoryUpdate id
               (ChildInput.set_owner (user_id currentUser) data) []
               currentUser in
           (ChildRepository.findById (Child.id (fst written))
              (committed (snd written) w),
            committed (snd written) w))
  /\ (forall owner,
         ChildService.update currentUser repositoryUpdate id
           (ChildInput.set_owner owner data) w
         = ChildService.update currentUser repositoryUpdate id data w).
Proof.
  intros Hco. split; [|split; [|split; [|split]]].
  - intros Hn. unfold ChildService.create, bindM, liftR,
      ChildService._validateCreate, throwR.
    rewrite Hco.
    destruct (String.eqb_spec (ChildInput.owner data) (user_id currentUser));
      [contradiction|reflexivity].
  - intros child D Hv.
    unfold ChildService.update, bindM, liftR.
    rewrite child_validateUpdate_run, Hco, child_findById_run, D.
    destruct (ChildService._validateFindById currentUser child w)
      as [e|[]] eqn:V.
    + apply child_validateFindById_error in V. subst e. reflexivity.
    + apply child_validateFindById_ok in V. contradiction.
  - intros e D. unfold ChildService.update, bindM, liftR.
    rewrite child_validateUpdate_run, Hco, child_findById_run, D.
    reflexivity.
  - intros child D Hv.
    apply (proj2 (child_validateFindById_ok currentUser child w)) in Hv.
    unfold ChildService.update, bindM, liftR.
    rewrite child_validateUpdate_run, Hco, child_findById_run, D, Hv.
    unfold AbstractRepository.createBatch, retM,
      AbstractRepository.commitBatch.
    destruct (repositoryUpdate id
                (ChildInput.set_owner (user_id currentUser) data) []
                currentUser) as [record batch].
    reflexivity.
  - intros owner. unfold ChildService.update, bindM, liftR.
    rewrite !child_validateUpdate_run, Hco. reflexivity.
Qed.

(** On the hotel: mallory registers a child for alice, and renames rex. *)
Lemma child_owner_writes_own_children_witness :
  let data := ChildInput.mk "alice" "Rex" boy "beagle" toddler None in
  let repositoryCreate (d : ChildInput.t) (batch : Batch) (_ : User) :=
    (Child.mk "tom" (Some (ChildInput.owner d)) [], batch) in
  let repositoryUpdate (i : Id) (d : ChildInput.t) (batch : Batch)
        (_ : User) :=
    (Child.mk i (Some (ChildInput.owner d)) [], batch) in
  ChildService.create mallory repositoryCreate data hotel
  = (inl ForbiddenError, hotel)
  /\ ChildService.update mallory repositoryUpdate "rex" data hotel
     = (inl ForbiddenError, hotel).
Proof.
  intros data repositoryCreate repositoryUpdate.
  destruct (child_owner_writes_own_children mallory repositoryCreate
              repositoryUpdate "rex" data hotel eq_refl)
    as (Hc & Hu & _).
  split.
  - apply Hc. discriminate.
  - apply (Hu rex eq_refl). intros [H|[H|H]]; discriminate H.
Defined.


